(** * content-manager: token lifecycle, session restoration and request pipeline

A shallow embedding of the authentication core of the dashboard:
- [src/shared/auth/types.ts]          (data model, storage keys)
- [src/shared/auth/token-manager.ts]  (token store)
- [src/shared/auth/user-service.ts]   (credential overlay)
- [src/shared/auth/auth-service.ts]   (session manager)
- [src/shared/store/slices/auth-slice.ts] (application state container)
- [src/shared/api/axios-instance.ts]  (request pipeline)

[localStorage] is a finite map from strings to strings.  [Date.now()] is
the [clock] field of the world; synchronous code sees one reading, and
only the network advances it.  [uuidv4()] draws from a supply carried by
the world.  A JavaScript exception is an explicit error branch. *)

From Stdlib Require Import ZArith Ascii String.
From stdpp Require Import base option strings pretty list gmap.

Local Open Scope Z_scope.

#[local] Set Warnings "-clear-no-such-hyp".

(** ** Data model ([types.ts]) *)

Module Types.

Inductive UserRole := admin | user.

Record User := mkUser {
  user_id : string;
  user_email : string;
  user_name : string;
  user_role : UserRole;
  user_avatar : option string;
}.

Record TokenMetadata := mkTokenMetadata {
  userId : string;
  email : string;
  role : UserRole;
  issuedAt : Z;
  expiresAt : Z;
}.

Record TokenPair := mkTokenPair {
  accessToken : string;
  refreshToken : string;
}.

Record UserCredential := mkUserCredential {
  cred_id : string;
  cred_email : string;
  cred_password : string;
  cred_name : string;
  cred_role : UserRole;
  cred_avatar : option string;
}.

Inductive AuthErrorCode :=
  | INVALID_CREDENTIALS | TOKEN_EXPIRED | TOKEN_INVALID | SESSION_NOT_FOUND
  | USER_NOT_FOUND | UPDATE_FAILED | INVALID_PASSWORD | WEAK_PASSWORD
  | SAME_PASSWORD.

Record AuthError := mkAuthError {
  code : AuthErrorCode;
  message : string;
}.

(** The [{ data, error }] pairs returned by the services: exactly one of the
    two components is non-null. *)
Inductive result (A : Type) :=
  | Ok (data : A)
  | Err (error : AuthError).
Arguments Ok {A} data.
Arguments Err {A} error.

End Types.

Import Types.

Module STORAGE_KEYS.
Definition ACCESS_TOKEN : string := "accessToken".
Definition REFRESH_TOKEN : string := "refreshToken".
Definition USER_INFO : string := "userInfo".
End STORAGE_KEYS.

Definition CUSTOM_USERS_KEY : string := "custom_users".

Definition ACCESS_TOKEN_EXPIRY : Z := 15 * 60 * 1000.
Definition REFRESH_TOKEN_EXPIRY : Z := 7 * 24 * 60 * 60 * 1000.

(** ** The platform *)

(** [JSON.stringify] / [JSON.parse] at one record shape.  [JSON_parse]
    answers [None] where the platform function throws (the empty text is one
    such input); a text that does not describe a value of the asserted
    TypeScript type is treated alike. *)
Class Json (A : Type) := {
  JSON_stringify : A → string;
  JSON_parse : string → option A;
  JSON_parse_stringify : ∀ a, JSON_parse (JSON_stringify a) = Some a;
  JSON_parse_empty : JSON_parse "" = None;
}.

Record World := mkWorld {
  localStorage : gmap string string;
  clock : Z;
  uuid_supply : nat → ascii * string;
  uuid_next : nat;
}.

Definition getItem (k : string) (w : World) : option string :=
  localStorage w !! k.

Definition setItem (k v : string) (w : World) : World :=
  mkWorld (<[k := v]> (localStorage w)) (clock w) (uuid_supply w) (uuid_next w).

Definition removeItem (k : string) (w : World) : World :=
  mkWorld (delete k (localStorage w)) (clock w) (uuid_supply w) (uuid_next w).

Definition Date_now (w : World) : Z := clock w.

(** The next identifier [uuidv4()] hands out: never the empty string. *)
Definition next_uuid (w : World) : string :=
  String (uuid_supply w (uuid_next w)).1 (uuid_supply w (uuid_next w)).2.

Definition uuidv4 (w : World) : string * World :=
  (next_uuid w,
   mkWorld (localStorage w) (clock w) (uuid_supply w) (S (uuid_next w))).

(** JavaScript truthiness of a [string | null]: [!s] holds for [null] and
    for the empty string. *)
Definition truthy (s : option string) : bool :=
  match s with
  | Some (String _ _) => true
  | _ => false
  end.

(** [s.length] of a JavaScript string: the number of UTF-16 code units.
    Strings here are the UTF-8 bytes of the text, so a continuation byte
    [10xxxxxx] counts for nothing, the lead byte [11110xxx] of a four-byte
    sequence for a surrogate pair, and any other byte for one unit. *)
Definition utf16_units (c : ascii) : nat :=
  match c with
  | Ascii _ _ _ b3 b4 b5 b6 b7 =>
      if b7 then
        if b6 then (if b5 && b4 && negb b3 then 2 else 1)%nat else 0%nat
      else 1%nat
  end.

Fixpoint length_utf16 (s : string) : nat :=
  match s with
  | EmptyString => 0%nat
  | String c s' => (utf16_units c + length_utf16 s')%nat
  end.

(** ** Token store ([token-manager.ts]) *)

Definition token_meta_key (token : string) : string := "token_meta_" +:+ token.

Section TokenManager.
Context `{Json TokenMetadata}.

Definition generateAccessToken (u : User) (w : World) : string * World :=
  let '(token, w1) := uuidv4 w in
  let now := Date_now w1 in
  let metadata :=
    {| userId := user_id u; email := user_email u; role := user_role u;
       issuedAt := now; expiresAt := now + ACCESS_TOKEN_EXPIRY |} in
  (token, setItem (token_meta_key token) (JSON_stringify metadata) w1).

Definition generateRefreshToken (u : User) (w : World) : string * World :=
  let '(token, w1) := uuidv4 w in
  let now := Date_now w1 in
  let metadata :=
    {| userId := user_id u; email := user_email u; role := user_role u;
       issuedAt := now; expiresAt := now + REFRESH_TOKEN_EXPIRY |} in
  (token, setItem (token_meta_key token) (JSON_stringify metadata) w1).

Definition createTokenPair (u : User) (w : World) : TokenPair * World :=
  let '(a, w1) := generateAccessToken u w in
  let '(r, w2) := generateRefreshToken u w1 in
  ({| accessToken := a; refreshToken := r |}, w2).

Definition getTokenMetadata (token : string) (w : World) : option TokenMetadata :=
  let metadata := getItem (token_meta_key token) w in
  if truthy metadata then metadata ≫= JSON_parse else None.

Definition isTokenValid (token : option string) (w : World) : bool :=
  if truthy token then
    match token ≫= λ t, getTokenMetadata t w with
    | None => false
    | Some metadata => bool_decide (Date_now w < expiresAt metadata)
    end
  else false.

Definition getUserFromToken (token : string) (w : World) : option User :=
  metadata ← getTokenMetadata token w;
  Some {| user_id := userId metadata; user_email := email metadata;
          user_name := ""; user_role := role metadata;
          user_avatar := None |}.

Definition refreshAccessToken (refreshToken : string) (w : World)
  : option string * World :=
  if negb (isTokenValid (Some refreshToken) w) then (None, w)
  else
    match getTokenMetadata refreshToken w with
    | None => (None, w)
    | Some metadata =>
        let u := {| user_id := userId metadata; user_email := email metadata;
                    user_name := ""; user_role := role metadata;
                    user_avatar := None |} in
        let '(t, w') := generateAccessToken u w in
        (Some t, w')
    end.

Definition saveTokens (tokens : TokenPair) (w : World) : World :=
  setItem STORAGE_KEYS.REFRESH_TOKEN (refreshToken tokens)
    (setItem STORAGE_KEYS.ACCESS_TOKEN (accessToken tokens) w).

Definition getStoredTokens (w : World) : option TokenPair :=
  let a := getItem STORAGE_KEYS.ACCESS_TOKEN w in
  let r := getItem STORAGE_KEYS.REFRESH_TOKEN w in
  if negb (truthy a) || negb (truthy r) then None
  else
    match a, r with
    | Some a, Some r => Some {| accessToken := a; refreshToken := r |}
    | _, _ => None
    end.

Definition clearTokens (w : World) : World :=
  let a := getItem STORAGE_KEYS.ACCESS_TOKEN w in
  let r := getItem STORAGE_KEYS.REFRESH_TOKEN w in
  let w1 := removeItem STORAGE_KEYS.ACCESS_TOKEN w in
  let w2 := removeItem STORAGE_KEYS.REFRESH_TOKEN w1 in
  let w3 := removeItem STORAGE_KEYS.USER_INFO w2 in
  let w4 :=
    match a with
    | Some t => if truthy a then removeItem (token_meta_key t) w3 else w3
    | None => w3
    end in
  match r with
  | Some t => if truthy r then removeItem (token_meta_key t) w4 else w4
  | None => w4
  end.

Definition getTokenTimeRemaining (token : string) (w : World) : Z :=
  match getTokenMetadata token w with
  | None => 0
  | Some metadata => Z.max 0 (expiresAt metadata - Date_now w)
  end.

End TokenManager.

(** ** Credential overlay ([user-service.ts]) *)

Fixpoint findIndex {A} (p : A → bool) (l : list A) : option nat :=
  match l with
  | [] => None
  | x :: l' => if p x then Some 0%nat else S <$> findIndex p l'
  end.

Section UserService.
Context `{Json (list UserCredential)}.

(** The stored text is read at its declared type [UserCredential[]]; a
    text that [JSON.parse] accepts at another type is not described here
    (see [overlay_readable]). *)
Definition getCustomUsers (w : World) : list UserCredential :=
  let stored := getItem CUSTOM_USERS_KEY w in
  if truthy stored then default [] (stored ≫= JSON_parse) else [].

Definition saveCustomUsers (users : list UserCredential) (w : World) : World :=
  setItem CUSTOM_USERS_KEY (JSON_stringify users) w.

(** [fetched] is what [fetch('/mock-data/auth.json')] delivers: the
    directory's [users] array, or [None] when the fetch fails. *)
Definition getAllUsers (fetched : option (list UserCredential)) (w : World)
  : list UserCredential :=
  match fetched with
  | None => []
  | Some mockUsers =>
      let customUsers := getCustomUsers w in
      map (λ mockUser,
             let customUser :=
               find (λ u, String.eqb (cred_id u) (cred_id mockUser)) customUsers in
             default mockUser customUser)
          mockUsers
  end.

Definition getUserById (fetched : option (list UserCredential))
    (userId : string) (w : World) : option UserCredential :=
  find (λ u, String.eqb (cred_id u) userId) (getAllUsers fetched w).

Definition changePassword (fetched : option (list UserCredential))
    (userId currentPassword newPassword : string) (w : World)
  : result unit * World :=
  match getUserById fetched userId w with
  | None =>
      (Err (mkAuthError USER_NOT_FOUND "사용자를 찾을 수 없습니다."), w)
  | Some currentUser =>
      if negb (String.eqb (cred_password currentUser) currentPassword) then
        (Err (mkAuthError INVALID_PASSWORD "현재 비밀번호가 올바르지 않습니다."), w)
      else if (length_utf16 newPassword <? 4)%nat then
        (Err (mkAuthError WEAK_PASSWORD "비밀번호는 4자 이상이어야 합니다."), w)
      else if String.eqb currentPassword newPassword then
        (Err (mkAuthError SAME_PASSWORD "새 비밀번호가 현재 비밀번호와 같습니다."), w)
      else
        let updatedUser :=
          {| cred_id := cred_id currentUser; cred_email := cred_email currentUser;
             cred_password := newPassword; cred_name := cred_name currentUser;
             cred_role := cred_role currentUser;
             cred_avatar := cred_avatar currentUser |} in
        let customUsers := getCustomUsers w in
        let customUsers' :=
          match findIndex (λ u, String.eqb (cred_id u) userId) customUsers with
          | Some existingIndex => <[existingIndex := updatedUser]> customUsers
          | None => customUsers ++ [updatedUser]
          end in
        (Ok (), saveCustomUsers customUsers' w)
  end.

Definition getLoginExamples (fetched : option (list UserCredential)) (w : World)
  : list (string * string * string) :=
  map (λ u,
         (match cred_role u with admin => "관리자" | user => "일반 사용자" end,
          cred_email u, cred_password u))
      (getAllUsers fetched w).

End UserService.

Record UpdateProfileParams := mkUpdateProfileParams {
  param_name : option string;
  param_email : option string;
  param_avatar : option string;
}.

Section UserServiceProfile.
Context `{Json (list UserCredential), Json User}.

(** [a ?? b] on an optional avatar: only an absent parameter falls back. *)
Definition updateProfile (fetched : option (list UserCredential))
    (userId : string) (params : UpdateProfileParams) (w : World)
  : result User * World :=
  match getUserById fetched userId w with
  | None =>
      (Err (mkAuthError USER_NOT_FOUND "사용자를 찾을 수 없습니다."), w)
  | Some currentUser =>
      let updatedUser :=
        {| cred_id := cred_id currentUser;
           cred_email := default (cred_email currentUser) (param_email params);
           cred_password := cred_password currentUser;
           cred_name := default (cred_name currentUser) (param_name params);
           cred_role := cred_role currentUser;
           cred_avatar :=
             match param_avatar params with
             | Some a => Some a
             | None => cred_avatar currentUser
             end |} in
      let customUsers := getCustomUsers w in
      let customUsers' :=
        match findIndex (λ u, String.eqb (cred_id u) userId) customUsers with
        | Some existingIndex => <[existingIndex := updatedUser]> customUsers
        | None => customUsers ++ [updatedUser]
        end in
      let w1 := saveCustomUsers customUsers' w in
      let userInfo :=
        {| user_id := cred_id updatedUser; user_email := cred_email updatedUser;
           user_name := cred_name updatedUser; user_role := cred_role updatedUser;
           user_avatar := cred_avatar updatedUser |} in
      (Ok userInfo, setItem STORAGE_KEYS.USER_INFO (JSON_stringify userInfo) w1)
  end.

Definition resetUserData (w : World) : World := removeItem CUSTOM_USERS_KEY w.

End UserServiceProfile.

(** ** Session manager ([auth-service.ts]) *)

Record LoginCredentials := mkLoginCredentials {
  login_email : string;
  login_password : string;
}.

Record LoginResponse := mkLoginResponse {
  response_user : User;
  response_tokens : TokenPair;
}.

Section AuthService.
Context `{Json TokenMetadata, Json User}.

Definition login (fetched : option (list UserCredential))
    (credentials : LoginCredentials) (w : World)
  : result LoginResponse * World :=
  match fetched with
  | None =>
      (Err (mkAuthError TOKEN_INVALID "로그인 처리 중 오류가 발생했습니다."), w)
  | Some users =>
      match
        find (λ u, String.eqb (cred_email u) (login_email credentials)
                   && String.eqb (cred_password u) (login_password credentials))
             users
      with
      | None =>
          (Err (mkAuthError INVALID_CREDENTIALS
                  "이메일 또는 비밀번호가 올바르지 않습니다."), w)
      | Some u =>
          let '(tokens, w1) :=
            createTokenPair
              {| user_id := cred_id u; user_email := cred_email u;
                 user_name := cred_name u; user_role := cred_role u;
                 user_avatar := cred_avatar u |} w in
          let w2 := saveTokens tokens w1 in
          let userInfo :=
            {| user_id := cred_id u; user_email := cred_email u;
               user_name := cred_name u; user_role := cred_role u;
               user_avatar := cred_avatar u |} in
          let w3 := setItem STORAGE_KEYS.USER_INFO (JSON_stringify userInfo) w2 in
          (Ok {| response_user := userInfo; response_tokens := tokens |}, w3)
      end
  end.

(** The tail of [getSession]: step 5, restoring the cached user.  A
    [JSON.parse] failure lands in the [catch] block, which clears the
    tokens. *)
Definition restoreUser (accessToken : string) (w : World)
  : result (User * string) * World :=
  let userInfoStr := getItem STORAGE_KEYS.USER_INFO w in
  if negb (truthy userInfoStr) then
    (Err (mkAuthError SESSION_NOT_FOUND "사용자 정보를 찾을 수 없습니다."), w)
  else
    match userInfoStr ≫= JSON_parse with
    | Some u => (Ok (u, accessToken), w)
    | None =>
        (Err (mkAuthError TOKEN_INVALID "세션 복원 중 오류가 발생했습니다."),
         clearTokens w)
    end.

Definition getSession (w : World) : result (User * string) * World :=
  match getStoredTokens w with
  | None =>
      (Err (mkAuthError SESSION_NOT_FOUND "저장된 세션이 없습니다."), w)
  | Some tokens =>
      if negb (isTokenValid (Some (accessToken tokens)) w) then
        match refreshAccessToken (refreshToken tokens) w with
        | (None, w1) =>
            (Err (mkAuthError TOKEN_EXPIRED
                    "세션이 만료되었습니다. 다시 로그인해주세요."),
             clearTokens w1)
        | (Some newAccessToken, w1) =>
            if negb (truthy (Some newAccessToken)) then
              (Err (mkAuthError TOKEN_EXPIRED
                      "세션이 만료되었습니다. 다시 로그인해주세요."),
               clearTokens w1)
            else
              let w2 :=
                saveTokens {| accessToken := newAccessToken;
                              refreshToken := refreshToken tokens |} w1 in
              restoreUser newAccessToken w2
        end
      else restoreUser (accessToken tokens) w
  end.

Definition logout (w : World) : option AuthError * World :=
  (None, clearTokens w).

Definition isAuthenticated (w : World) : bool :=
  match getStoredTokens w with
  | None => false
  | Some tokens =>
      isTokenValid (Some (accessToken tokens)) w
      || isTokenValid (Some (refreshToken tokens)) w
  end.

End AuthService.

Section AuthServiceTokens.
Context `{Json TokenMetadata, Json User}.

Definition getAccessToken (w : World) : option string :=
  match getStoredTokens w with
  | Some tokens =>
      if truthy (Some (accessToken tokens)) then Some (accessToken tokens) else None
  | None => None
  end.

Definition manualRefreshToken (w : World) : result string * World :=
  match getStoredTokens w with
  | None =>
      (Err (mkAuthError SESSION_NOT_FOUND "저장된 토큰이 없습니다."), w)
  | Some tokens =>
      match refreshAccessToken (refreshToken tokens) w with
      | (None, w1) =>
          (Err (mkAuthError TOKEN_EXPIRED "Refresh token이 만료되었습니다."),
           clearTokens w1)
      | (Some newAccessToken, w1) =>
          if negb (truthy (Some newAccessToken)) then
            (Err (mkAuthError TOKEN_EXPIRED "Refresh token이 만료되었습니다."),
             clearTokens w1)
          else
            (Ok newAccessToken,
             saveTokens {| accessToken := newAccessToken;
                           refreshToken := refreshToken tokens |} w1)
      end
  end.

Definition getCurrentUser (w : World) : option User :=
  let userInfoStr := getItem STORAGE_KEYS.USER_INFO w in
  if negb (truthy userInfoStr) then None else userInfoStr ≫= JSON_parse.

End AuthServiceTokens.

(** ** Application state container ([auth-slice.ts]) *)

(** [a || b] on a [string | undefined] left operand. *)
Definition or_default (payload : option string) (d : string) : string :=
  if truthy payload then default d payload else d.

Module AuthSlice.

Record AuthState := mkAuthState {
  user : option User;
  accessToken : option string;
  isAuthenticated : bool;
  loading : bool;
  error : option string;
}.

Definition initialState : AuthState :=
  {| user := None; accessToken := None; isAuthenticated := false;
     loading := false; error := None |}.

(** The actions the slice reacts to, with payloads at their declared
    TypeScript types; a rejected thunk carries its [rejectWithValue]
    payload, [None] when the thunk threw instead. *)
Inductive Action :=
  | clearError
  | setAccessToken (payload : string)
  | clearAuth
  | loginThunk_pending
  | loginThunk_fulfilled (u : User) (token : string)
  | loginThunk_rejected (payload : option string)
  | getSessionThunk_pending
  | getSessionThunk_fulfilled (u : User) (token : string)
  | getSessionThunk_rejected (payload : option string)
  | logoutThunk_fulfilled
  | refreshTokenThunk_fulfilled (token : string)
  | refreshTokenThunk_rejected (payload : option string)
  | updateProfileThunk_pending
  | updateProfileThunk_fulfilled (u : User)
  | updateProfileThunk_rejected (payload : option string)
  | changePasswordThunk_pending
  | changePasswordThunk_fulfilled
  | changePasswordThunk_rejected (payload : option string).

Definition reducer (state : AuthState) (action : Action) : AuthState :=
  match action with
  | clearError =>
      {| user := user state; accessToken := accessToken state;
         isAuthenticated := isAuthenticated state; loading := loading state;
         error := None |}
  | setAccessToken payload =>
      {| user := user state; accessToken := Some payload;
         isAuthenticated := isAuthenticated state; loading := loading state;
         error := error state |}
  | clearAuth =>
      {| user := None; accessToken := None; isAuthenticated := false;
         loading := false; error := None |}
  | loginThunk_pending | getSessionThunk_pending
  | updateProfileThunk_pending | changePasswordThunk_pending =>
      {| user := user state; accessToken := accessToken state;
         isAuthenticated := isAuthenticated state; loading := true;
         error := None |}
  | loginThunk_fulfilled u token | getSessionThunk_fulfilled u token =>
      {| user := Some u; accessToken := Some token; isAuthenticated := true;
         loading := false; error := None |}
  | loginThunk_rejected payload =>
      {| user := user state; accessToken := accessToken state;
         isAuthenticated := false; loading := false;
         error := Some (or_default payload "로그인에 실패했습니다.") |}
  | getSessionThunk_rejected _ =>
      {| user := user state; accessToken := accessToken state;
         isAuthenticated := false; loading := false; error := None |}
  | logoutThunk_fulfilled =>
      {| user := None; accessToken := None; isAuthenticated := false;
         loading := false; error := None |}
  | refreshTokenThunk_fulfilled token =>
      {| user := user state; accessToken := Some token;
         isAuthenticated := isAuthenticated state; loading := loading state;
         error := error state |}
  | refreshTokenThunk_rejected payload =>
      {| user := user state; accessToken := accessToken state;
         isAuthenticated := false; loading := loading state;
         error := Some (or_default payload "토큰 갱신에 실패했습니다.") |}
  | updateProfileThunk_fulfilled u =>
      {| user := Some u; accessToken := accessToken state;
         isAuthenticated := isAuthenticated state; loading := false;
         error := None |}
  | updateProfileThunk_rejected payload =>
      {| user := user state; accessToken := accessToken state;
         isAuthenticated := isAuthenticated state; loading := false;
         error := Some (or_default payload "프로필 수정에 실패했습니다.") |}
  | changePasswordThunk_fulfilled =>
      {| user := user state; accessToken := accessToken state;
         isAuthenticated := isAuthenticated state; loading := false;
         error := None |}
  | changePasswordThunk_rejected payload =>
      {| user := user state; accessToken := accessToken state;
         isAuthenticated := isAuthenticated state; loading := false;
         error := Some (or_default payload "비밀번호 변경에 실패했습니다.") |}
  end.

Section Thunks.
Context `{Json TokenMetadata, Json User}.

(** Dispatching a thunk: [pending], the payload creator, then
    [fulfilled] or [rejected]. *)
Definition getSessionThunk (w : World) (state : AuthState)
  : World * AuthState :=
  let state1 := reducer state getSessionThunk_pending in
  match getSession w with
  | (Ok (u, token), w') => (w', reducer state1 (getSessionThunk_fulfilled u token))
  | (Err e, w') =>
      let msg := or_default (Some (message e)) "세션을 복원할 수 없습니다." in
      (w', reducer state1 (getSessionThunk_rejected (Some msg)))
  end.

Definition loginThunk (fetched : option (list UserCredential))
    (credentials : LoginCredentials) (w : World) (state : AuthState)
  : World * AuthState :=
  let state1 := reducer state loginThunk_pending in
  match login fetched credentials w with
  | (Ok r, w') =>
      (w', reducer state1
             (loginThunk_fulfilled (response_user r)
                (Types.accessToken (response_tokens r))))
  | (Err e, w') =>
      let msg := or_default (Some (message e)) "로그인에 실패했습니다." in
      (w', reducer state1 (loginThunk_rejected (Some msg)))
  end.

End Thunks.

Section MoreThunks.
Context `{Json TokenMetadata, Json User, Json (list UserCredential)}.

(** The slice has no case for [logoutThunk.pending] or
    [logoutThunk.rejected]: those leave the state as it is. *)
Definition logoutThunk (w : World) (state : AuthState) : World * AuthState :=
  match logout w with
  | (None, w') => (w', reducer state logoutThunk_fulfilled)
  | (Some _, w') => (w', state)
  end.

(** No case for [refreshTokenThunk.pending] either. *)
Definition refreshTokenThunk (w : World) (state : AuthState) : World * AuthState :=
  match manualRefreshToken w with
  | (Ok token, w') => (w', reducer state (refreshTokenThunk_fulfilled token))
  | (Err e, w') =>
      let msg := or_default (Some (message e)) "토큰 갱신에 실패했습니다." in
      (w', reducer state (refreshTokenThunk_rejected (Some msg)))
  end.

Definition updateProfileThunk (fetched : option (list UserCredential))
    (userId : string) (params : UpdateProfileParams)
    (w : World) (state : AuthState) : World * AuthState :=
  let state1 := reducer state updateProfileThunk_pending in
  match updateProfile fetched userId params w with
  | (Ok u, w') => (w', reducer state1 (updateProfileThunk_fulfilled u))
  | (Err e, w') =>
      let msg := or_default (Some (message e)) "프로필 수정에 실패했습니다." in
      (w', reducer state1 (updateProfileThunk_rejected (Some msg)))
  end.

Definition changePasswordThunk (fetched : option (list UserCredential))
    (userId currentPassword newPassword : string)
    (w : World) (state : AuthState) : World * AuthState :=
  let state1 := reducer state changePasswordThunk_pending in
  match changePassword fetched userId currentPassword newPassword w with
  | (Ok _, w') => (w', reducer state1 changePasswordThunk_fulfilled)
  | (Err e, w') =>
      let msg := or_default (Some (message e)) "비밀번호 변경에 실패했습니다." in
      (w', reducer state1 (changePasswordThunk_rejected (Some msg)))
  end.

End MoreThunks.

Definition selectUserRole (state : AuthState) : option UserRole :=
  user_role <$> user state.

Definition selectIsAdmin (state : AuthState) : bool :=
  match selectUserRole state with
  | Some admin => true
  | _ => false
  end.

End AuthSlice.

(** ** Route guard ([ProtectedRoute.tsx]) *)

Inductive RouteView := LoadingScreen | NavigateToLogin | Children.

Definition ProtectedRoute (state : AuthSlice.AuthState) : RouteView :=
  if AuthSlice.loading state then LoadingScreen
  else if negb (AuthSlice.isAuthenticated state) then NavigateToLogin
  else Children.

(** ** Request pipeline ([axios-instance.ts]) *)

Module AxiosInstance.

(** The request config.  [_isRetry] is the custom property the response
    interceptor sets; it stays on the config object through a resend. *)
Record InternalAxiosRequestConfig := mkConfig {
  url : string;
  headers : gmap string string;
  _isRetry : bool;
}.

Record AxiosResponse := mkResponse {
  status : Z;
  config : InternalAxiosRequestConfig;
}.

(** [response_status] is [error.response?.status]; a failure without a
    response (network error, timeout) has none. *)
Record AxiosError := mkError {
  error_config : InternalAxiosRequestConfig;
  response_status : option Z;
}.

(** What the adapter gets back for one request put on the wire. *)
Record Reply := mkReply {
  reply_status : option Z;
  elapsed : Z;
}.

(** The remote end: the reply to the [n]-th request sent. *)
Definition Network : Type := nat → InternalAxiosRequestConfig → Reply.

Record Env := mkEnv {
  world : World;
  store : AuthSlice.AuthState;
  href : string;
  math_random : nat → string;
  wire : list InternalAxiosRequestConfig;
}.

Definition with_world (w : World) (e : Env) : Env :=
  mkEnv w (store e) (href e) (math_random e) (wire e).

Definition dispatch (a : AuthSlice.Action) (e : Env) : Env :=
  mkEnv (world e) (AuthSlice.reducer (store e) a) (href e) (math_random e) (wire e).

Definition set_href (l : string) (e : Env) : Env :=
  mkEnv (world e) (store e) l (math_random e) (wire e).

Definition set_header (k v : string) (c : InternalAxiosRequestConfig)
  : InternalAxiosRequestConfig :=
  mkConfig (url c) (<[k := v]> (headers c)) (_isRetry c).

Definition requestInterceptor (c : InternalAxiosRequestConfig) (e : Env)
  : InternalAxiosRequestConfig :=
  let token := AuthSlice.accessToken (store e) in
  let token :=
    if negb (truthy token) then
      match getStoredTokens (world e) with
      | Some tokens =>
          if truthy (Some (Types.accessToken tokens))
          then Some (Types.accessToken tokens) else None
      | None => None
      end
    else token in
  let c1 :=
    match token with
    | Some t => if truthy token then set_header "Authorization" ("Bearer " +:+ t) c else c
    | None => c
    end in
  set_header "X-Request-ID"
    (pretty (Date_now (world e)) +:+ "-" +:+ math_random e (length (wire e))) c1.

(** The adapter: the request goes on the wire, time passes, a reply
    arrives. *)
Definition send (net : Network) (c : InternalAxiosRequestConfig) (e : Env)
  : Reply * Env :=
  let r := net (length (wire e)) c in
  let w := world e in
  (r, mkEnv (mkWorld (localStorage w) (clock w + elapsed r) (uuid_supply w) (uuid_next w))
            (store e) (href e) (math_random e) (c :: wire e)).

Section Interceptors.
Context `{Json TokenMetadata}.

(** The [try] block of the 401 branch up to the resend: [Some] is the
    new access token, [None] a [throw]. *)
Definition renew (e : Env) : option string * Env :=
  match getStoredTokens (world e) with
  | None => (None, e)
  | Some tokens =>
      if negb (truthy (Some (refreshToken tokens))) then (None, e)
      else if negb (isTokenValid (Some (refreshToken tokens)) (world e)) then (None, e)
      else
        match refreshAccessToken (refreshToken tokens) (world e) with
        | (None, w1) => (None, with_world w1 e)
        | (Some newAccessToken, w1) =>
            if negb (truthy (Some newAccessToken)) then (None, with_world w1 e)
            else
              let w2 :=
                saveTokens {| Types.accessToken := newAccessToken;
                              refreshToken := refreshToken tokens |} w1 in
              (Some newAccessToken,
               dispatch (AuthSlice.setAccessToken newAccessToken) (with_world w2 e))
        end
  end.

(** The error handler of the response interceptor.  [resend] is the
    instance itself; its promise is returned without [await], so a
    failure of the resend is not seen by the [catch] block. *)
Definition responseRejected
    (resend : InternalAxiosRequestConfig → Env
              → option ((AxiosResponse + AxiosError) * Env))
    (error : AxiosError) (e : Env)
  : option ((AxiosResponse + AxiosError) * Env) :=
  let originalRequest := error_config error in
  if bool_decide (response_status error = Some 401) && negb (_isRetry originalRequest)
  then
    let originalRequest := mkConfig (url originalRequest) (headers originalRequest) true in
    let error := mkError originalRequest (response_status error) in
    match renew e with
    | (Some newAccessToken, e1) =>
        resend (set_header "Authorization" ("Bearer " +:+ newAccessToken) originalRequest) e1
    | (None, e1) =>
        Some (inr error, set_href "/login" (dispatch AuthSlice.clearAuth e1))
    end
  else Some (inr error, e).

(** [axiosInstance(config)]: request interceptor, adapter, response
    interceptor.  [fuel] bounds the nesting of resends; [None] means it
    ran out. *)
Fixpoint axiosInstance (fuel : nat) (net : Network)
    (c : InternalAxiosRequestConfig) (e : Env)
  : option ((AxiosResponse + AxiosError) * Env) :=
  match fuel with
  | O => None
  | S fuel' =>
      let c1 := requestInterceptor c e in
      let '(r, e1) := send net c1 e in
      match reply_status r with
      | Some s =>
          if bool_decide (200 ≤ s < 300) then Some (inl (mkResponse s c1), e1)
          else responseRejected (axiosInstance fuel' net) (mkError c1 (Some s)) e1
      | None => responseRejected (axiosInstance fuel' net) (mkError c1 None) e1
      end
  end.

End Interceptors.

End AxiosInstance.

(** ** Vocabulary of the statements *)

(** The keys of the stored session, in the words of the specification: the
    token pair, the cached user, and the metadata entries of the tokens
    found under [accessToken] and [refreshToken]. *)
Definition stored_token (k : string) (w : World) : list string :=
  match getItem k w with
  | Some t => if truthy (Some t) then [t] else []
  | None => []
  end.

Definition session_keys (w : World) : list string :=
  [STORAGE_KEYS.ACCESS_TOKEN; STORAGE_KEYS.REFRESH_TOKEN; STORAGE_KEYS.USER_INFO]
  ++ (token_meta_key <$> stored_token STORAGE_KEYS.ACCESS_TOKEN w)
  ++ (token_meta_key <$> stored_token STORAGE_KEYS.REFRESH_TOKEN w).

(** The cached user, in the words of the specification: what the
    [userInfo] key holds, read back. *)
Definition cached_user `{Json User} (w : World) : option User :=
  getItem STORAGE_KEYS.USER_INFO w ≫= JSON_parse.

(** The world after a successful renewal inside [getSession]: the new
    token's metadata written, then the pair saved. *)
Definition renewed `{Json TokenMetadata} (w : World) (r : string) (m : TokenMetadata) : World :=
  saveTokens {| accessToken := next_uuid w; refreshToken := r |}
    (generateAccessToken
       {| user_id := userId m; user_email := email m; user_name := "";
          user_role := role m; user_avatar := None |} w).2.

(** A remote end that answers every request with 401. *)
Definition always_401 (net : AxiosInstance.Network) : Prop :=
  ∀ n c, AxiosInstance.reply_status (net n c) = Some 401.

(** The request as the 401 branch leaves it: [_isRetry] set. *)
Definition flagged (c : AxiosInstance.InternalAxiosRequestConfig)
  : AxiosInstance.InternalAxiosRequestConfig :=
  AxiosInstance.mkConfig (AxiosInstance.url c) (AxiosInstance.headers c) true.

(** The [User] that [login] builds from a directory record. *)
Definition user_of_credential (u : UserCredential) : User :=
  {| user_id := cred_id u; user_email := cred_email u; user_name := cred_name u;
     user_role := cred_role u; user_avatar := cred_avatar u |}.

(** A directory record matches the credentials. *)
Definition matches (c : LoginCredentials) (u : UserCredential) : Prop :=
  cred_email u = login_email c ∧ cred_password u = login_password c.


(** The same world read at another time. *)
Definition later (now : Z) (w : World) : World :=
  mkWorld (localStorage w) now (uuid_supply w) (uuid_next w).

(** ** A serialisation satisfying the [Json] laws

    A self-delimiting text format for the three record shapes the program
    stores.  It stands in for [JSON.stringify] / [JSON.parse] wherever a
    concrete storage content has to be evaluated. *)

Module Codec.

Fixpoint put_string (s k : string) : string :=
  match s with
  | EmptyString => String "."%char k
  | String c s' => String "+"%char (String c (put_string s' k))
  end.

Fixpoint get_string (s : string) : option (string * string) :=
  match s with
  | EmptyString => None
  | String m r =>
      if Ascii.eqb m "."%char then Some (EmptyString, r)
      else if Ascii.eqb m "+"%char then
        match r with
        | EmptyString => None
        | String c r' =>
            match get_string r' with
            | Some (t, k) => Some (String c t, k)
            | None => None
            end
        end
      else None
  end.

Fixpoint put_positive (p : positive) (k : string) : string :=
  match p with
  | xH => String "h"%char k
  | xO p' => String "o"%char (put_positive p' k)
  | xI p' => String "i"%char (put_positive p' k)
  end.

Fixpoint get_positive (s : string) : option (positive * string) :=
  match s with
  | EmptyString => None
  | String m r =>
      if Ascii.eqb m "h"%char then Some (xH, r)
      else if Ascii.eqb m "o"%char then
        match get_positive r with Some (p, k) => Some (xO p, k) | None => None end
      else if Ascii.eqb m "i"%char then
        match get_positive r with Some (p, k) => Some (xI p, k) | None => None end
      else None
  end.

Definition put_Z (z : Z) (k : string) : string :=
  match z with
  | Z0 => String "z"%char k
  | Zpos p => String "p"%char (put_positive p k)
  | Zneg p => String "n"%char (put_positive p k)
  end.

Definition get_Z (s : string) : option (Z * string) :=
  match s with
  | EmptyString => None
  | String m r =>
      if Ascii.eqb m "z"%char then Some (Z0, r)
      else if Ascii.eqb m "p"%char then
        match get_positive r with Some (p, k) => Some (Zpos p, k) | None => None end
      else if Ascii.eqb m "n"%char then
        match get_positive r with Some (p, k) => Some (Zneg p, k) | None => None end
      else None
  end.

Definition put_role (r : UserRole) (k : string) : string :=
  match r with
  | admin => String "a"%char k
  | user => String "u"%char k
  end.

Definition get_role (s : string) : option (UserRole * string) :=
  match s with
  | EmptyString => None
  | String m r =>
      if Ascii.eqb m "a"%char then Some (admin, r)
      else if Ascii.eqb m "u"%char then Some (user, r)
      else None
  end.

Definition put_avatar (a : option string) (k : string) : string :=
  match a with
  | None => String "N"%char k
  | Some s => String "S"%char (put_string s k)
  end.

Definition get_avatar (s : string) : option (option string * string) :=
  match s with
  | EmptyString => None
  | String m r =>
      if Ascii.eqb m "N"%char then Some (None, r)
      else if Ascii.eqb m "S"%char then
        match get_string r with Some (t, k) => Some (Some t, k) | None => None end
      else None
  end.

Definition put_metadata (m : TokenMetadata) (k : string) : string :=
  put_string (userId m) (put_string (email m) (put_role (role m)
    (put_Z (issuedAt m) (put_Z (expiresAt m) k)))).

Definition get_metadata (s : string) : option (TokenMetadata * string) :=
  '(uid, s) ← get_string s;
  '(em, s) ← get_string s;
  '(r, s) ← get_role s;
  '(i, s) ← get_Z s;
  '(e, s) ← get_Z s;
  Some (mkTokenMetadata uid em r i e, s).

Definition put_user (u : User) (k : string) : string :=
  put_string (user_id u) (put_string (user_email u) (put_string (user_name u)
    (put_role (user_role u) (put_avatar (user_avatar u) k)))).

Definition get_user (s : string) : option (User * string) :=
  '(i, s) ← get_string s;
  '(em, s) ← get_string s;
  '(n, s) ← get_string s;
  '(r, s) ← get_role s;
  '(a, s) ← get_avatar s;
  Some (mkUser i em n r a, s).

Definition put_credential (u : UserCredential) (k : string) : string :=
  put_string (cred_id u) (put_string (cred_email u) (put_string (cred_password u)
    (put_string (cred_name u) (put_role (cred_role u) (put_avatar (cred_avatar u) k))))).

Definition get_credential (s : string) : option (UserCredential * string) :=
  '(i, s) ← get_string s;
  '(em, s) ← get_string s;
  '(p, s) ← get_string s;
  '(n, s) ← get_string s;
  '(r, s) ← get_role s;
  '(a, s) ← get_avatar s;
  Some (mkUserCredential i em p n r a, s).

(** A list is its length in unary, then its elements. *)
Fixpoint put_count (n : nat) (k : string) : string :=
  match n with
  | O => String "]"%char k
  | S n' => String ","%char (put_count n' k)
  end.

Fixpoint get_count (s : string) : option (nat * string) :=
  match s with
  | EmptyString => None
  | String m r =>
      if Ascii.eqb m "]"%char then Some (O, r)
      else if Ascii.eqb m ","%char then
        match get_count r with Some (n, k) => Some (S n, k) | None => None end
      else None
  end.

Fixpoint put_credentials (l : list UserCredential) (k : string) : string :=
  match l with
  | [] => k
  | u :: l' => put_credential u (put_credentials l' k)
  end.

Fixpoint get_credentials (n : nat) (s : string)
  : option (list UserCredential * string) :=
  match n with
  | O => Some ([], s)
  | S n' =>
      '(u, s) ← get_credential s;
      '(l, s) ← get_credentials n' s;
      Some (u :: l, s)
  end.

(** A text is accepted when nothing is left over. *)
Definition whole {A} (r : option (A * string)) : option A :=
  match r with
  | Some (a, EmptyString) => Some a
  | _ => None
  end.

Definition stringify_metadata (m : TokenMetadata) : string := put_metadata m "".
Definition parse_metadata (s : string) : option TokenMetadata := whole (get_metadata s).

Definition stringify_user (u : User) : string := put_user u "".
Definition parse_user (s : string) : option User := whole (get_user s).

Definition stringify_credentials (l : list UserCredential) : string :=
  put_count (length l) (put_credentials l "").
Definition parse_credentials (s : string) : option (list UserCredential) :=
  whole ('(n, s) ← get_count s; get_credentials n s).

Lemma get_put_string s k : get_string (put_string s k) = Some (s, k).
Proof. induction s as [|c s IH]; simpl; [done|]. by rewrite IH. Qed.

Lemma get_put_positive p k : get_positive (put_positive p k) = Some (p, k).
Proof. induction p as [p IH|p IH|]; simpl; by rewrite ?IH. Qed.

Lemma get_put_Z z k : get_Z (put_Z z k) = Some (z, k).
Proof. destruct z; simpl; by rewrite ?get_put_positive. Qed.

Lemma get_put_role r k : get_role (put_role r k) = Some (r, k).
Proof. by destruct r. Qed.

Lemma get_put_avatar a k : get_avatar (put_avatar a k) = Some (a, k).
Proof. destruct a; simpl; by rewrite ?get_put_string. Qed.

Create Rewrite HintDb codec.

#[local] Hint Rewrite get_put_string get_put_Z get_put_role get_put_avatar : codec.

Ltac unroll := repeat (autorewrite with codec; simpl).

Lemma get_put_metadata m k : get_metadata (put_metadata m k) = Some (m, k).
Proof.
  destruct m. unfold get_metadata, put_metadata; simpl. by unroll.
Qed.

Lemma get_put_user u k : get_user (put_user u k) = Some (u, k).
Proof.
  destruct u. unfold get_user, put_user; simpl. by unroll.
Qed.

Lemma get_put_credential u k : get_credential (put_credential u k) = Some (u, k).
Proof.
  destruct u. unfold get_credential, put_credential; simpl. by unroll.
Qed.

Lemma get_put_count n k : get_count (put_count n k) = Some (n, k).
Proof. induction n as [|n IH]; simpl; by rewrite ?IH. Qed.

Lemma get_put_credentials l k :
  get_credentials (length l) (put_credentials l k) = Some (l, k).
Proof.
  induction l as [|u l IH]; simpl; [done|].
  by rewrite get_put_credential; simpl; rewrite IH.
Qed.

Lemma parse_stringify_metadata m : parse_metadata (stringify_metadata m) = Some m.
Proof. unfold parse_metadata, stringify_metadata. by rewrite get_put_metadata. Qed.

Lemma parse_stringify_user u : parse_user (stringify_user u) = Some u.
Proof. unfold parse_user, stringify_user. by rewrite get_put_user. Qed.

Lemma parse_stringify_credentials l :
  parse_credentials (stringify_credentials l) = Some l.
Proof.
  unfold parse_credentials, stringify_credentials.
  rewrite get_put_count; simpl. by rewrite get_put_credentials.
Qed.

Definition Json_TokenMetadata : Json TokenMetadata :=
  {| JSON_stringify := stringify_metadata; JSON_parse := parse_metadata;
     JSON_parse_stringify := parse_stringify_metadata;
     JSON_parse_empty := eq_refl |}.

Definition Json_User : Json User :=
  {| JSON_stringify := stringify_user; JSON_parse := parse_user;
     JSON_parse_stringify := parse_stringify_user;
     JSON_parse_empty := eq_refl |}.

Definition Json_credentials : Json (list UserCredential) :=
  {| JSON_stringify := stringify_credentials; JSON_parse := parse_credentials;
     JSON_parse_stringify := parse_stringify_credentials;
     JSON_parse_empty := eq_refl |}.

End Codec.

(** ** Concrete storage contents used to exercise the statements *)

Module Sample.

#[local] Existing Instances Codec.Json_TokenMetadata Codec.Json_User Codec.Json_credentials.

Definition supply (n : nat) : ascii * string := ("u"%char, "uid-" +:+ pretty n).

Definition directory : list UserCredential :=
  [ mkUserCredential "1" "admin@example.com" "admin123" "Admin" admin None;
    mkUserCredential "2" "user@example.com" "user123" "User" user None ].

Definition fresh : World := mkWorld ∅ 1000 supply 0.

(** The world right after [login("admin@example.com", "admin123")]. *)
Definition logged_in : World :=
  (login (Some directory) (mkLoginCredentials "admin@example.com" "admin123") fresh).2.

Definition at_time (now : Z) (w : World) : World :=
  mkWorld (localStorage w) now (uuid_supply w) (uuid_next w).

(** Sixteen minutes later the access token has expired, the refresh token
    has not. *)
Definition access_expired : World := at_time (1000 + 16 * 60 * 1000) logged_in.

(** Eight days later both have. *)
Definition both_expired : World := at_time (1000 + 8 * 24 * 60 * 60 * 1000) logged_in.

End Sample.

Module SampleSessions.

#[local] Existing Instances Codec.Json_TokenMetadata Codec.Json_User Codec.Json_credentials.

(** A logged-in store from which the cached user was removed. *)
Definition without_user : World := removeItem "userInfo" Sample.logged_in.

Definition without_user_access_expired : World :=
  removeItem "userInfo" Sample.access_expired.

Definition admin_user : User := mkUser "1" "admin@example.com" "Admin" admin None.

(** The store after user "1" changed the password to "s3cret". *)
Definition password_changed : World :=
  (changePassword (Some Sample.directory) "1" "admin123" "s3cret" Sample.fresh).2.

End SampleSessions.

Module SamplePipeline.

Import AxiosInstance.

(** Every request is answered 401 after five milliseconds. *)
Definition rejecting : Network := λ _ _, mkReply (Some 401) 5.

Definition request : InternalAxiosRequestConfig := mkConfig "/api/posts" ∅ false.

(** A cold page load sixteen minutes after login: the refresh token is
    still valid. *)
Definition env : Env :=
  mkEnv Sample.access_expired AuthSlice.initialState "/" (λ _, "k3x9") [].

End SamplePipeline.

Module SampleExtras.

Import AxiosInstance.

#[local] Existing Instances Codec.Json_TokenMetadata Codec.Json_User Codec.Json_credentials.

Definition admin_credentials : LoginCredentials :=
  mkLoginCredentials "admin@example.com" "admin123".

Definition admin_record : UserCredential :=
  mkUserCredential "1" "admin@example.com" "admin123" "Admin" admin None.

Definition admin_response : LoginResponse :=
  {| response_user := SampleSessions.admin_user;
     response_tokens := {| accessToken := "uuid-0"; refreshToken := "uuid-1" |} |}.

(** A logged-in store whose cached user cannot be read back. *)
Definition unreadable_user : World := setItem "userInfo" "garbage" Sample.logged_in.

Definition rename : UpdateProfileParams := mkUpdateProfileParams (Some "Root") None None.

Definition accepting : Network := λ _ _, mkReply (Some 200) 5.

Definition failing : Network := λ _ _, mkReply (Some 500) 5.

(** 401 for the first request, 200 for every later one. *)
Definition rejecting_once : Network :=
  λ n _, match n with O => mkReply (Some 401) 5 | S _ => mkReply (Some 200) 5 end.

(** A page whose store and storage hold no session. *)
Definition cold : Env :=
  mkEnv Sample.fresh AuthSlice.initialState "/" (λ _, "k3x9") [].

End SampleExtras.

(** * Properties *)

(** ** Storage and key lemmas *)

Lemma JSON_stringify_nonempty `{Json A} (a : A) : JSON_stringify a ≠ "".
Proof.
  intros E. pose proof (JSON_parse_stringify a) as P.
  rewrite E, JSON_parse_empty in P. discriminate.
Qed.

Lemma truthy_Some s : truthy (Some s) = true ↔ s ≠ "".
Proof. destruct s; simpl; split; congruence. Qed.

Lemma getItem_setItem k v w k' :
  getItem k' (setItem k v w) = if decide (k = k') then Some v else getItem k' w.
Proof. unfold getItem, setItem; simpl. apply lookup_insert. Qed.

Lemma getItem_removeItem k w k' :
  getItem k' (removeItem k w) = if decide (k = k') then None else getItem k' w.
Proof. unfold getItem, removeItem; simpl. apply lookup_delete. Qed.

Lemma token_meta_key_inj a b : token_meta_key a = token_meta_key b → a = b.
Proof. unfold token_meta_key. intros E. by simplify_eq/=. Qed.

Lemma token_meta_key_not_session t :
  token_meta_key t ≠ STORAGE_KEYS.ACCESS_TOKEN
  ∧ token_meta_key t ≠ STORAGE_KEYS.REFRESH_TOKEN
  ∧ token_meta_key t ≠ STORAGE_KEYS.USER_INFO
  ∧ token_meta_key t ≠ CUSTOM_USERS_KEY
  ∧ token_meta_key t ≠ "app_settings".
Proof. by repeat split. Qed.

Ltac keys :=
  repeat match goal with
  | |- context [decide (?a = ?b)] =>
      destruct (decide (a = b)) as [?E|?E];
      [ try discriminate E;
        try (apply token_meta_key_inj in E; subst)
      | ]
  end.

(** ** Token store *)

Section TokenStore.
Context `{Json TokenMetadata}.

Lemma getTokenMetadata_raw t w m :
  getTokenMetadata t w = Some m
  ↔ ∃ s, localStorage w !! ("token_meta_" +:+ t) = Some s ∧ JSON_parse s = Some m.
Proof.
  unfold getTokenMetadata, getItem, token_meta_key.
  destruct (localStorage w !! _) as [s|]; simpl.
  - destruct s as [|c s]; simpl.
    + split; [done|]. intros (s' & [= <-] & P).
      by rewrite JSON_parse_empty in P.
    + split; [eauto|]. by intros (s' & [= <-] & P).
  - split; [done|]. by intros (? & ? & ?).
Qed.

Lemma isTokenValid_metadata t w :
  isTokenValid (Some t) w = true
  ↔ t ≠ "" ∧ ∃ m, getTokenMetadata t w = Some m ∧ clock w < expiresAt m.
Proof.
  unfold isTokenValid. destruct (truthy (Some t)) eqn:T.
  - apply truthy_Some in T. simpl.
    destruct (getTokenMetadata t w) as [m|].
    + rewrite bool_decide_eq_true. unfold Date_now. split.
      * intros L. split; [done|]. by exists m.
      * by intros (_ & m' & [= <-] & L).
    + split; [done|]. by intros (_ & m' & [=] & _).
  - split; [done|]. intros [N _]. apply truthy_Some in N. congruence.
Qed.

Lemma getTokenMetadata_frame t w w' :
  getItem (token_meta_key t) w' = getItem (token_meta_key t) w →
  getTokenMetadata t w' = getTokenMetadata t w.
Proof. unfold getTokenMetadata. by intros ->. Qed.

Lemma generateAccessToken_metadata u w :
  getTokenMetadata (generateAccessToken u w).1 (generateAccessToken u w).2
  = Some {| userId := user_id u; email := user_email u; role := user_role u;
            issuedAt := clock w; expiresAt := clock w + ACCESS_TOKEN_EXPIRY |}.
Proof.
  unfold generateAccessToken, getTokenMetadata; simpl.
  rewrite getItem_setItem. rewrite decide_True by done.
  destruct (JSON_stringify _) as [|c s] eqn:E.
  - by apply JSON_stringify_nonempty in E.
  - simpl. rewrite <- E. apply JSON_parse_stringify.
Qed.

End TokenStore.

Section TokenStoreClaims.
Context `{Json TokenMetadata}.

(** C2.  [isTokenValid(T)] is true exactly when [T] is non-empty, the
    storage holds a metadata record under [token_meta_<T>], and the current
    time is strictly before that record's [expiresAt]; a [null] token is
    invalid.  The check is a function of the world alone: it returns no
    changed storage. *)
Theorem isTokenValid_is_expiry_comparison
    (T : string) (now : Z) (ls : gmap string string)
    (sup : nat → ascii * string) (n : nat) :
  let w := mkWorld ls now sup n in
  (isTokenValid (Some T) w = true
   ↔ T ≠ "" ∧ ∃ s m, ls !! ("token_meta_" +:+ T) = Some s
                      ∧ JSON_parse s = Some m ∧ now < expiresAt m)
  ∧ isTokenValid None w = false.
Proof.
  intros w. split; [|done].
  rewrite isTokenValid_metadata. split.
  - intros (N & m & M & L). split; [done|].
    apply getTokenMetadata_raw in M as (s & S & P). by exists s, m.
  - intros (N & s & m & S & P & L). split; [done|]. exists m. split; [|done].
    apply getTokenMetadata_raw. by exists s.
Qed.

Lemma refreshAccessToken_invalid R w :
  isTokenValid (Some R) w = false → refreshAccessToken R w = (None, w).
Proof. unfold refreshAccessToken. by intros ->. Qed.

Lemma refreshAccessToken_valid R w :
  isTokenValid (Some R) w = true →
  ∃ m, getTokenMetadata R w = Some m
    ∧ refreshAccessToken R w
      = (Some (next_uuid w),
         (generateAccessToken
            {| user_id := userId m; user_email := email m; user_name := "";
               user_role := role m; user_avatar := None |} w).2).
Proof.
  intros V. unfold refreshAccessToken. rewrite V; simpl.
  apply isTokenValid_metadata in V as (_ & m & M & _).
  exists m. by rewrite M.
Qed.

Lemma isTokenValid_frame t w w' :
  getItem (token_meta_key t) w' = getItem (token_meta_key t) w →
  clock w' = clock w →
  isTokenValid (Some t) w' = isTokenValid (Some t) w.
Proof.
  intros G C. unfold isTokenValid. destruct (truthy (Some t)); [|done]. simpl.
  rewrite (getTokenMetadata_frame t w w' G). unfold Date_now. by rewrite C.
Qed.

(** C5.  [refreshAccessToken(R)] answers [null], leaving the world as it
    was, when [R] is invalid or has no metadata; it is a total function, so
    there is no faulting path.  When [R] is valid it issues an access token
    whose stored metadata carries the [userId], [email] and [role] of [R]'s
    own metadata, expiring fifteen minutes from now; and this stays so after
    any edit of the persisted user records ([custom_users], [userInfo]). *)
Theorem refreshAccessToken_identity_from_refresh_metadata (R : string) (w : World) :
  (isTokenValid (Some R) w = false → refreshAccessToken R w = (None, w))
  ∧ (getTokenMetadata R w = None → refreshAccessToken R w = (None, w))
  ∧ (isTokenValid (Some R) w = true →
     ∃ m, getTokenMetadata R w = Some m
       ∧ (∃ t w', refreshAccessToken R w = (Some t, w')
            ∧ getTokenMetadata t w'
              = Some {| userId := userId m; email := email m; role := role m;
                        issuedAt := clock w;
                        expiresAt := clock w + 15 * 60 * 1000 |})
       ∧ (∀ edited_users edited_info : string,
            let w_edited :=
              setItem STORAGE_KEYS.USER_INFO edited_info
                (setItem CUSTOM_USERS_KEY edited_users w) in
            ∃ t w', refreshAccessToken R w_edited = (Some t, w')
              ∧ getTokenMetadata t w'
                = Some {| userId := userId m; email := email m; role := role m;
                          issuedAt := clock w;
                          expiresAt := clock w + 15 * 60 * 1000 |})).
Proof.
  split; [apply refreshAccessToken_invalid|]. split.
  - intros M. apply refreshAccessToken_invalid.
    destruct (isTokenValid (Some R) w) eqn:V; [|done].
    apply isTokenValid_metadata in V as (_ & m & M' & _). congruence.
  - intros V.
    destruct (refreshAccessToken_valid R w V) as (m & M & E).
    exists m. split; [done|]. split.
    + eexists _, _. split; [exact E|].
      exact (generateAccessToken_metadata _ w).
    + intros eu ei w_edited.
      assert (G : getItem (token_meta_key R) w_edited = getItem (token_meta_key R) w).
      { unfold w_edited. rewrite !getItem_setItem. by keys. }
      assert (V' : isTokenValid (Some R) w_edited = true).
      { by rewrite (isTokenValid_frame R w w_edited G). }
      destruct (refreshAccessToken_valid R w_edited V') as (m' & M' & E').
      rewrite (getTokenMetadata_frame R w w_edited G), M in M'.
      injection M' as <-.
      eexists _, _. split; [exact E'|].
      exact (generateAccessToken_metadata _ w_edited).
Qed.

End TokenStoreClaims.

Lemma isTokenValid_is_expiry_comparison_witness :
  isTokenValid (H := Codec.Json_TokenMetadata) (Some "uuid-0") Sample.logged_in = true.
Proof.
  destruct (isTokenValid_is_expiry_comparison (H := Codec.Json_TokenMetadata)
              "uuid-0" 1000 (localStorage Sample.logged_in) Sample.supply 2)
    as [[_ valid] _].
  apply valid. split; [discriminate|].
  eexists _, _. split; [vm_compute; reflexivity|].
  split; [vm_compute; reflexivity|reflexivity].
Defined.

Lemma refreshAccessToken_identity_from_refresh_metadata_witness :
  isTokenValid (H := Codec.Json_TokenMetadata) (Some "uuid-1") Sample.access_expired = true
  ∧ ∃ t w',
      refreshAccessToken (H := Codec.Json_TokenMetadata) "uuid-1"
        (setItem STORAGE_KEYS.USER_INFO "edited"
           (setItem CUSTOM_USERS_KEY "edited" Sample.access_expired)) = (Some t, w')
      ∧ role <$> getTokenMetadata (H := Codec.Json_TokenMetadata) t w' = Some admin.
Proof.
  split; [reflexivity|].
  destruct (refreshAccessToken_identity_from_refresh_metadata
              (H := Codec.Json_TokenMetadata) "uuid-1" Sample.access_expired)
    as (_ & _ & valid).
  destruct (valid eq_refl) as (m & M & _ & edited).
  destruct (edited "edited" "edited") as (t & w' & E & M').
  exists t, w'. split; [exact E|]. rewrite M'; simpl.
  vm_compute in M. injection M as <-. reflexivity.
Defined.

(** ** Clearing the stored session *)

Lemma clearTokens_getItem w k :
  getItem k (clearTokens w)
  = if decide (k ∈ session_keys w) then None else getItem k w.
Proof.
  unfold clearTokens, session_keys, stored_token.
  destruct (getItem STORAGE_KEYS.ACCESS_TOKEN w) as [[|c a]|];
    destruct (getItem STORAGE_KEYS.REFRESH_TOKEN w) as [[|c' r]|];
    simpl; rewrite ?getItem_removeItem;
    repeat case_decide; subst; try done; set_solver.
Qed.

Lemma clearTokens_world w :
  clock (clearTokens w) = clock w
  ∧ uuid_supply (clearTokens w) = uuid_supply w
  ∧ uuid_next (clearTokens w) = uuid_next w.
Proof.
  unfold clearTokens.
  destruct (getItem STORAGE_KEYS.ACCESS_TOKEN w) as [[|c a]|];
    destruct (getItem STORAGE_KEYS.REFRESH_TOKEN w) as [[|c' r]|]; done.
Qed.

Lemma World_eq w w' :
  localStorage w = localStorage w' → clock w = clock w' →
  uuid_supply w = uuid_supply w' → uuid_next w = uuid_next w' → w = w'.
Proof. destruct w, w'; simpl. by intros -> -> -> ->. Qed.

Lemma clearTokens_cleared w k : k ∈ session_keys w → getItem k (clearTokens w) = None.
Proof. intros I. rewrite clearTokens_getItem. by rewrite decide_True. Qed.

Lemma clearTokens_idempotent w : clearTokens (clearTokens w) = clearTokens w.
Proof.
  destruct (clearTokens_world (clearTokens w)) as (C & S & N).
  apply World_eq; [|done..].
  apply map_eq. intros k. change (getItem k (clearTokens (clearTokens w)) = getItem k (clearTokens w)).
  rewrite (clearTokens_getItem (clearTokens w)).
  case_decide as I; [|done].
  unfold session_keys, stored_token in I.
  rewrite !clearTokens_cleared in I by (unfold session_keys; set_solver).
  simpl in I. symmetry. apply clearTokens_cleared. unfold session_keys. set_solver.
Qed.

(** C8.  [clearTokens] removes exactly the [accessToken], [refreshToken] and
    [userInfo] keys and the [token_meta_] entries of the (non-empty) tokens
    that were stored under [accessToken] and [refreshToken]; every other key
    keeps its value, in particular [app_settings], [custom_users] and the
    [token_meta_] entry of any other token; clock and uuid supply are not
    touched. *)
Theorem clearTokens_removes_exactly_session_keys (w : World) :
  (∀ k, getItem k (clearTokens w)
        = if decide (k ∈ session_keys w) then None else getItem k w)
  ∧ getItem "app_settings" (clearTokens w) = getItem "app_settings" w
  ∧ getItem "custom_users" (clearTokens w) = getItem "custom_users" w
  ∧ (∀ t, getItem "accessToken" w ≠ Some t → getItem "refreshToken" w ≠ Some t →
          getItem ("token_meta_" +:+ t) (clearTokens w)
          = getItem ("token_meta_" +:+ t) w)
  ∧ clock (clearTokens w) = clock w
  ∧ uuid_next (clearTokens w) = uuid_next w.
Proof.
  split; [apply clearTokens_getItem|].
  assert (M : ∀ k t, token_meta_key t ∈ token_meta_key <$> stored_token k w →
                     getItem k w = Some t).
  { intros k t I. apply list_elem_of_fmap in I as (t' & E & I).
    apply token_meta_key_inj in E as <-. unfold stored_token in I.
    destruct (getItem k w) as [s|]; [|by apply elem_of_nil in I].
    destruct (truthy (Some s)); [|by apply elem_of_nil in I].
    apply list_elem_of_singleton in I. by subst. }
  assert (S : ∀ k s, k ∈ token_meta_key <$> stored_token s w → ∃ t, k = token_meta_key t).
  { intros k s I. apply list_elem_of_fmap in I as (t & -> & _). by exists t. }
  repeat split; try apply clearTokens_world.
  - rewrite clearTokens_getItem. rewrite decide_False; [done|].
    unfold session_keys. intros I.
    rewrite !elem_of_app in I. destruct I as [I|[I|I]].
    + set_solver.
    + by apply S in I as (t & E).
    + by apply S in I as (t & E).
  - rewrite clearTokens_getItem. rewrite decide_False; [done|].
    unfold session_keys. intros I.
    rewrite !elem_of_app in I. destruct I as [I|[I|I]].
    + set_solver.
    + by apply S in I as (t & E).
    + by apply S in I as (t & E).
  - intros t NA NR. rewrite clearTokens_getItem. rewrite decide_False; [done|].
    unfold session_keys. intros I.
    rewrite !elem_of_app in I. destruct I as [I|[I|I]].
    + set_solver.
    + by apply (M _ t) in I.
    + by apply (M _ t) in I.
Qed.

Lemma clearTokens_removes_exactly_session_keys_witness :
  let w := setItem "token_meta_other" "kept" Sample.logged_in in
  getItem "token_meta_other" (clearTokens w) = Some "kept"
  ∧ getItem "token_meta_uuid-0" (clearTokens w) = None.
Proof.
  intros w.
  destruct (clearTokens_removes_exactly_session_keys w) as (exact & _ & _ & other & _).
  split.
  - transitivity (getItem "token_meta_other" w); [|reflexivity].
    apply (other "other"); vm_compute; discriminate.
  - rewrite exact. reflexivity.
Defined.

Lemma clearTokens_empty w : localStorage w = ∅ → clearTokens w = w.
Proof.
  intros E. unfold clearTokens, getItem. rewrite E, !lookup_empty.
  apply World_eq; simpl; [|done..]. rewrite E. by rewrite !delete_empty.
Qed.

(** C7.  [logout] always returns success (it has no failing path), and
    after it every key of the stored session is absent: the token pair, the
    cached user and the metadata entries of the stored tokens.  A second
    [logout] in a row succeeds again and changes nothing, and on an empty
    store [logout] succeeds and leaves the store empty. *)
Theorem logout_idempotent_total (w : World) :
  (logout w).1 = None
  ∧ (∀ k, k ∈ session_keys w → getItem k (logout w).2 = None)
  ∧ logout (logout w).2 = (None, (logout w).2)
  ∧ (localStorage w = ∅ → logout w = (None, w)).
Proof.
  unfold logout; simpl. split; [done|]. split; [apply clearTokens_cleared|].
  split; [by rewrite clearTokens_idempotent|].
  intros E. by rewrite clearTokens_empty.
Qed.

Lemma logout_idempotent_total_witness :
  logout Sample.fresh = (None, Sample.fresh)
  ∧ getItem "token_meta_uuid-1" (logout Sample.logged_in).2 = None.
Proof.
  split.
  - apply (logout_idempotent_total Sample.fresh). reflexivity.
  - apply (logout_idempotent_total Sample.logged_in). vm_compute.
    do 4 apply list_elem_of_further. apply list_elem_of_here.
Defined.

(** ** Session manager *)

Section SessionClaims.
Context `{Json TokenMetadata, Json User}.

Lemma getStoredTokens_Some w a r :
  getStoredTokens w = Some {| accessToken := a; refreshToken := r |}
  ↔ getItem "accessToken" w = Some a ∧ a ≠ ""
    ∧ getItem "refreshToken" w = Some r ∧ r ≠ "".
Proof.
  unfold getStoredTokens.
  change STORAGE_KEYS.ACCESS_TOKEN with "accessToken".
  change STORAGE_KEYS.REFRESH_TOKEN with "refreshToken".
  destruct (getItem "accessToken" w) as [[|c a']|];
    destruct (getItem "refreshToken" w) as [[|c' r']|]; simpl;
    (split; [intros E | intros (E1 & N1 & E2 & N2)]); simplify_eq; done.
Qed.

Lemma getStoredTokens_None w :
  getStoredTokens w = None
  ↔ truthy (getItem "accessToken" w) = false
    ∨ truthy (getItem "refreshToken" w) = false.
Proof.
  unfold getStoredTokens.
  change STORAGE_KEYS.ACCESS_TOKEN with "accessToken".
  change STORAGE_KEYS.REFRESH_TOKEN with "refreshToken".
  destruct (getItem "accessToken" w) as [[|c a']|];
    destruct (getItem "refreshToken" w) as [[|c' r']|]; simpl;
    (split; [intros E; try discriminate E; auto
            | intros [E|E]; try discriminate E; done]).
Qed.

(** C6.  With a token pair stored, [isAuthenticated()] is true exactly when
    the access token is valid or the refresh token is valid; so an expired
    access token next to a valid refresh token still gives true.  With no
    stored pair (a key absent or empty) it is false. *)
Theorem isAuthenticated_lenient (w : World) :
  (∀ a r, getStoredTokens w = Some {| accessToken := a; refreshToken := r |} →
     (isAuthenticated w = true
      ↔ isTokenValid (Some a) w = true ∨ isTokenValid (Some r) w = true))
  ∧ (∀ a r, getStoredTokens w = Some {| accessToken := a; refreshToken := r |} →
       isTokenValid (Some a) w = false → isTokenValid (Some r) w = true →
       isAuthenticated w = true)
  ∧ (truthy (getItem "accessToken" w) = false
     ∨ truthy (getItem "refreshToken" w) = false →
     isAuthenticated w = false).
Proof.
  unfold isAuthenticated. split; [|split].
  - intros a r ->; simpl. by rewrite orb_true_iff.
  - intros a r -> _ V; simpl. rewrite V. apply orb_true_r.
  - intros N. apply getStoredTokens_None in N. by rewrite N.
Qed.

End SessionClaims.

Lemma isAuthenticated_lenient_witness :
  isTokenValid (H := Codec.Json_TokenMetadata) (Some "uuid-0") Sample.access_expired = false
  ∧ isAuthenticated (H := Codec.Json_TokenMetadata) Sample.access_expired = true
  ∧ isAuthenticated (H := Codec.Json_TokenMetadata) Sample.fresh = false.
Proof.
  split; [reflexivity|]. split.
  - apply (isAuthenticated_lenient (H := Codec.Json_TokenMetadata) Sample.access_expired)
      with (a := "uuid-0") (r := "uuid-1"); reflexivity.
  - apply (isAuthenticated_lenient (H := Codec.Json_TokenMetadata) Sample.fresh).
    left. reflexivity.
Defined.

(** ** Session restoration *)

Section SessionRestore.
Context `{Json TokenMetadata, Json User}.

Lemma restoreUser_cached t w u :
  cached_user w = Some u → restoreUser t w = (Ok (u, t), w).
Proof.
  unfold cached_user, restoreUser.
  destruct (getItem STORAGE_KEYS.USER_INFO w) as [[|c s]|]; simpl.
  - by rewrite JSON_parse_empty.
  - by intros ->.
  - done.
Qed.

Lemma restoreUser_absent t w :
  getItem STORAGE_KEYS.USER_INFO w = None →
  restoreUser t w
  = (Err (mkAuthError SESSION_NOT_FOUND "사용자 정보를 찾을 수 없습니다."), w).
Proof. unfold restoreUser. by intros ->. Qed.

Lemma getSession_no_pair w :
  getStoredTokens w = None →
  getSession w = (Err (mkAuthError SESSION_NOT_FOUND "저장된 세션이 없습니다."), w).
Proof. unfold getSession. by intros ->. Qed.

Lemma getSession_valid w a r :
  getStoredTokens w = Some {| accessToken := a; refreshToken := r |} →
  isTokenValid (Some a) w = true →
  getSession w = restoreUser a w.
Proof. unfold getSession. intros -> V; simpl. by rewrite V. Qed.

Lemma getSession_expired w a r :
  getStoredTokens w = Some {| accessToken := a; refreshToken := r |} →
  isTokenValid (Some a) w = false →
  isTokenValid (Some r) w = false →
  getSession w
  = (Err (mkAuthError TOKEN_EXPIRED "세션이 만료되었습니다. 다시 로그인해주세요."),
     clearTokens w).
Proof.
  unfold getSession. intros -> A R; simpl. rewrite A; simpl.
  by rewrite (refreshAccessToken_invalid r w R).
Qed.

Lemma getSession_renewed w a r :
  getStoredTokens w = Some {| accessToken := a; refreshToken := r |} →
  isTokenValid (Some a) w = false →
  isTokenValid (Some r) w = true →
  ∃ m, getTokenMetadata r w = Some m
     ∧ getSession w = restoreUser (next_uuid w) (renewed w r m).
Proof.
  unfold getSession. intros -> A R; simpl. rewrite A; simpl.
  destruct (refreshAccessToken_valid r w R) as (m & M & ->).
  exists m. split; [done|]. reflexivity.
Qed.

Lemma renewed_getItem w r m k :
  getItem k (renewed w r m)
  = if decide (k = "refreshToken") then Some r
    else if decide (k = "accessToken") then Some (next_uuid w)
    else if decide (k = token_meta_key (next_uuid w)) then
      Some (JSON_stringify
              {| userId := userId m; email := email m; role := role m;
                 issuedAt := clock w; expiresAt := clock w + ACCESS_TOKEN_EXPIRY |})
    else getItem k w.
Proof.
  unfold renewed, saveTokens, generateAccessToken; simpl.
  rewrite !getItem_setItem; simpl.
  change STORAGE_KEYS.ACCESS_TOKEN with "accessToken".
  change STORAGE_KEYS.REFRESH_TOKEN with "refreshToken".
  repeat case_decide; try congruence. done.
Qed.

Lemma renewed_token_valid w r m :
  isTokenValid (Some (next_uuid w)) (renewed w r m) = true.
Proof.
  apply isTokenValid_metadata. split; [done|].
  eexists. split.
  - unfold getTokenMetadata. rewrite renewed_getItem.
    rewrite decide_False by done. rewrite decide_False by done.
    rewrite decide_True by done.
    destruct (JSON_stringify _) as [|c s] eqn:E.
    + by apply JSON_stringify_nonempty in E.
    + simpl. rewrite <- E. apply JSON_parse_stringify.
  - simpl. unfold ACCESS_TOKEN_EXPIRY. unfold renewed, saveTokens; simpl. lia.
Qed.

Lemma renewed_stored w r m :
  r ≠ "" →
  getStoredTokens (renewed w r m)
  = Some {| accessToken := next_uuid w; refreshToken := r |}.
Proof.
  intros N. apply getStoredTokens_Some. rewrite !renewed_getItem.
  rewrite decide_False by done. rewrite !decide_True by done. done.
Qed.

Lemma renewed_cached_user w r m : cached_user (renewed w r m) = cached_user w.
Proof.
  unfold cached_user. rewrite renewed_getItem.
  by rewrite !decide_False by done.
Qed.

Lemma restoreUser_falsy t w :
  truthy (getItem "userInfo" w) = false →
  restoreUser t w
  = (Err (mkAuthError SESSION_NOT_FOUND "사용자 정보를 찾을 수 없습니다."), w).
Proof.
  unfold restoreUser. change STORAGE_KEYS.USER_INFO with "userInfo". by intros ->.
Qed.

Lemma restoreUser_unreadable t w s :
  getItem "userInfo" w = Some s → s ≠ "" → JSON_parse (A := User) s = None →
  restoreUser t w
  = (Err (mkAuthError TOKEN_INVALID "세션 복원 중 오류가 발생했습니다."), clearTokens w).
Proof.
  intros U N P. unfold restoreUser. change STORAGE_KEYS.USER_INFO with "userInfo".
  rewrite U. apply truthy_Some in N. rewrite N; simpl. by rewrite P.
Qed.

Lemma restoreUser_uuid_next t w : uuid_next (restoreUser t w).2 = uuid_next w.
Proof.
  unfold restoreUser. repeat case_match; simpl; try done.
  all: apply clearTokens_world.
Qed.

Lemma clearTokens_no_pair w : getStoredTokens (clearTokens w) = None.
Proof.
  apply getStoredTokens_None. left.
  rewrite (clearTokens_cleared w "accessToken"); [done|].
  unfold session_keys. apply list_elem_of_here.
Qed.

(** C4, as the code has it, for every storage state.
    - No stored pair: [SESSION_NOT_FOUND], nothing touched.
    - Stored access token valid: no token is issued; with a cached user
      under [userInfo] the result is that user with the stored token and the
      world is unchanged; with [userInfo] absent (or empty) the result is
      [SESSION_NOT_FOUND], world unchanged; with a [userInfo] text that
      [JSON.parse] rejects the stored session is cleared and the result is
      [TOKEN_INVALID].
    - Access token expired, refresh token invalid: the stored session is
      cleared and the result is [TOKEN_EXPIRED].
    - Access token expired, refresh token valid: one token is issued and
      written under [accessToken], valid, next to the unchanged refresh
      token; then, from that world, the same three cases on [userInfo]: the
      cached user with the new token, the renewed pair staying stored;
      [SESSION_NOT_FOUND], the renewed pair staying stored; or
      [TOKEN_INVALID] with the stored session cleared again. *)
Theorem getSession_restores (w : World) :
  (getStoredTokens w = None →
   ∃ msg, getSession w = (Err (mkAuthError SESSION_NOT_FOUND msg), w))
  ∧ (∀ a r, getStoredTokens w = Some {| accessToken := a; refreshToken := r |} →
       (isTokenValid (Some a) w = true →
          uuid_next (getSession w).2 = uuid_next w
          ∧ (∀ u, cached_user w = Some u → getSession w = (Ok (u, a), w))
          ∧ (truthy (getItem "userInfo" w) = false →
             ∃ msg, getSession w = (Err (mkAuthError SESSION_NOT_FOUND msg), w))
          ∧ (∀ s, getItem "userInfo" w = Some s → s ≠ "" →
                  JSON_parse (A := User) s = None →
             ∃ msg, getSession w
                    = (Err (mkAuthError TOKEN_INVALID msg), clearTokens w)
                  ∧ getStoredTokens (clearTokens w) = None))
       ∧ (isTokenValid (Some a) w = false → isTokenValid (Some r) w = false →
          ∃ msg, getSession w = (Err (mkAuthError TOKEN_EXPIRED msg), clearTokens w)
               ∧ ∀ k, k ∈ session_keys w → getItem k (clearTokens w) = None)
       ∧ (isTokenValid (Some a) w = false → isTokenValid (Some r) w = true →
          ∃ t w1,
            getItem "accessToken" w1 = Some t
            ∧ getItem "refreshToken" w1 = Some r
            ∧ getStoredTokens w1 = Some {| accessToken := t; refreshToken := r |}
            ∧ isTokenValid (Some t) w1 = true
            ∧ uuid_next w1 = S (uuid_next w)
            ∧ getItem "userInfo" w1 = getItem "userInfo" w
            ∧ (∀ u, cached_user w = Some u → getSession w = (Ok (u, t), w1))
            ∧ (truthy (getItem "userInfo" w) = false →
               ∃ msg, getSession w
                      = (Err (mkAuthError SESSION_NOT_FOUND msg), w1))
            ∧ (∀ s, getItem "userInfo" w = Some s → s ≠ "" →
                    JSON_parse (A := User) s = None →
               ∃ msg, getSession w
                      = (Err (mkAuthError TOKEN_INVALID msg), clearTokens w1)
                    ∧ getStoredTokens (clearTokens w1) = None))).
Proof.
  split.
  { intros N. eexists. by apply getSession_no_pair. }
  intros a r St. split; [|split].
  - intros V. rewrite (getSession_valid w a r St V).
    split; [apply restoreUser_uuid_next|].
    split; [intros u U; by apply restoreUser_cached|].
    split; [intros F; eexists; by apply restoreUser_falsy|].
    intros s U N P. eexists. split; [by apply (restoreUser_unreadable a w s)|].
    apply clearTokens_no_pair.
  - intros A R. eexists. split; [by apply (getSession_expired w a r)|].
    apply clearTokens_cleared.
  - intros A R.
    destruct (getSession_renewed w a r St A R) as (m & M & ->).
    assert (Nr : r ≠ "") by (apply getStoredTokens_Some in St; tauto).
    assert (UI : getItem "userInfo" (renewed w r m) = getItem "userInfo" w).
    { rewrite renewed_getItem. by rewrite !decide_False by done. }
    exists (next_uuid w), (renewed w r m).
    rewrite !renewed_getItem.
    split; [by rewrite decide_False, decide_True by done|].
    split; [by rewrite decide_True by done|].
    split; [by apply renewed_stored|].
    split; [apply renewed_token_valid|]. split; [done|].
    split; [by rewrite !decide_False by done|].
    split; [intros u U; apply restoreUser_cached; by rewrite renewed_cached_user|].
    split.
    + intros F. eexists. apply restoreUser_falsy. by rewrite UI.
    + intros s U N P. eexists.
      split; [apply (restoreUser_unreadable _ _ s); by rewrite ?UI|].
      apply clearTokens_no_pair.
Qed.

End SessionRestore.

Section MissingUser.
Context `{Json TokenMetadata, Json User}.

(** C10.  With a token pair stored and the [userInfo] key absent,
    [getSession] fails with [SESSION_NOT_FOUND] and does not clear the
    tokens: when the access token is valid the world is left as it was; when
    it was renewed through a valid refresh token, the renewed pair stays
    stored and the new access token is valid. *)
Theorem getSession_missing_user_info (w : World) (a r : string) :
  getStoredTokens w = Some {| accessToken := a; refreshToken := r |} →
  getItem "userInfo" w = None →
  (isTokenValid (Some a) w = true →
   ∃ msg, getSession w = (Err (mkAuthError SESSION_NOT_FOUND msg), w))
  ∧ (isTokenValid (Some a) w = false → isTokenValid (Some r) w = true →
     ∃ msg w', getSession w = (Err (mkAuthError SESSION_NOT_FOUND msg), w')
       ∧ getStoredTokens w'
         = Some {| accessToken := next_uuid w; refreshToken := r |}
       ∧ isTokenValid (Some (next_uuid w)) w' = true).
Proof.
  intros S U. split.
  - intros V. rewrite (getSession_valid w a r S V). eexists.
    by apply restoreUser_absent.
  - intros A R.
    destruct (getSession_renewed w a r S A R) as (m & M & ->).
    assert (N : r ≠ "") by (apply getStoredTokens_Some in S; tauto).
    eexists _, (renewed w r m). split.
    { apply restoreUser_absent. rewrite renewed_getItem.
      by rewrite !decide_False by done. }
    split; [by apply renewed_stored|].
    apply renewed_token_valid.
Qed.

End MissingUser.

Lemma getSession_restores_witness :
  getSession (H := Codec.Json_TokenMetadata) (H0 := Codec.Json_User) Sample.logged_in
  = (Ok (SampleSessions.admin_user, "uuid-0"), Sample.logged_in)
  ∧ (∃ t w',
       getSession (H := Codec.Json_TokenMetadata) (H0 := Codec.Json_User)
         Sample.access_expired = (Ok (SampleSessions.admin_user, t), w')
       ∧ getItem "accessToken" w' = Some t
       ∧ getItem "refreshToken" w' = Some "uuid-1")
  ∧ (∃ msg,
       getSession (H := Codec.Json_TokenMetadata) (H0 := Codec.Json_User)
         Sample.both_expired
       = (Err (mkAuthError TOKEN_EXPIRED msg), clearTokens Sample.both_expired)).
Proof.
  split; [|split].
  - destruct (getSession_restores (H := Codec.Json_TokenMetadata)
                (H0 := Codec.Json_User) Sample.logged_in) as (_ & pair).
    destruct (pair "uuid-0" "uuid-1" eq_refl) as (valid & _).
    destruct (valid eq_refl) as (_ & cached & _).
    exact (cached SampleSessions.admin_user eq_refl).
  - destruct (getSession_restores (H := Codec.Json_TokenMetadata)
                (H0 := Codec.Json_User) Sample.access_expired) as (_ & pair).
    destruct (pair "uuid-0" "uuid-1" eq_refl) as (_ & _ & renewal).
    destruct (renewal eq_refl eq_refl)
      as (t & w' & A & R & _ & _ & _ & _ & cached & _).
    exists t, w'. split; [exact (cached SampleSessions.admin_user eq_refl)|].
    split; [exact A|exact R].
  - destruct (getSession_restores (H := Codec.Json_TokenMetadata)
                (H0 := Codec.Json_User) Sample.both_expired) as (_ & pair).
    destruct (pair "uuid-0" "uuid-1" eq_refl) as (_ & expired & _).
    destruct (expired eq_refl eq_refl) as (msg & E & _).
    exists msg. exact E.
Defined.

(** C4 fails as stated: here the stored access token is valid, yet
    [getSession] does not return it; the cached user is missing and the
    result is [SESSION_NOT_FOUND]. *)
Lemma getSession_valid_token_without_cached_user :
  getStoredTokens SampleSessions.without_user
  = Some {| accessToken := "uuid-0"; refreshToken := "uuid-1" |}
  ∧ isTokenValid (H := Codec.Json_TokenMetadata) (Some "uuid-0")
      SampleSessions.without_user = true
  ∧ (getSession (H := Codec.Json_TokenMetadata) (H0 := Codec.Json_User)
       SampleSessions.without_user).1
    = Err (mkAuthError SESSION_NOT_FOUND "사용자 정보를 찾을 수 없습니다.").
Proof. repeat split. Qed.

Lemma getSession_missing_user_info_witness :
  (∃ msg,
     getSession (H := Codec.Json_TokenMetadata) (H0 := Codec.Json_User)
       SampleSessions.without_user
     = (Err (mkAuthError SESSION_NOT_FOUND msg), SampleSessions.without_user))
  ∧ (∃ msg w',
       getSession (H := Codec.Json_TokenMetadata) (H0 := Codec.Json_User)
         SampleSessions.without_user_access_expired
       = (Err (mkAuthError SESSION_NOT_FOUND msg), w')
       ∧ getStoredTokens w'
         = Some {| accessToken := "uuid-2"; refreshToken := "uuid-1" |}).
Proof.
  split.
  - apply (getSession_missing_user_info (H := Codec.Json_TokenMetadata)
             (H0 := Codec.Json_User) SampleSessions.without_user "uuid-0" "uuid-1");
      reflexivity.
  - destruct (getSession_missing_user_info (H := Codec.Json_TokenMetadata)
                (H0 := Codec.Json_User) SampleSessions.without_user_access_expired
                "uuid-0" "uuid-1" eq_refl eq_refl) as (_ & renewal).
    destruct (renewal eq_refl eq_refl) as (msg & w' & E & S & _).
    exists msg, w'. split; [exact E|exact S].
Defined.

(** ** Application state container *)

(** C9.  Whatever the prior state and whatever message the failure carries,
    the [getSessionThunk.rejected] transition leaves [error] at [null] and
    sets [isAuthenticated] and [loading] to false, keeping [user] and
    [accessToken]; [loginThunk.rejected] stores the message it is given. *)
Theorem getSessionThunk_rejected_is_silent
    (state : AuthSlice.AuthState) (payload : option string) :
  let state' := AuthSlice.reducer state (AuthSlice.getSessionThunk_rejected payload) in
  AuthSlice.error state' = None
  ∧ AuthSlice.isAuthenticated state' = false
  ∧ AuthSlice.loading state' = false
  ∧ AuthSlice.user state' = AuthSlice.user state
  ∧ AuthSlice.accessToken state' = AuthSlice.accessToken state
  ∧ ∀ c msg,
      let rejected :=
        AuthSlice.reducer state (AuthSlice.loginThunk_rejected (Some (String c msg))) in
      AuthSlice.error rejected = Some (String c msg)
      ∧ AuthSlice.isAuthenticated rejected = false
      ∧ AuthSlice.loading rejected = false.
Proof. by repeat split. Qed.

(** Through the thunk, a failed restoration of any kind ends with no error
    shown. *)
Lemma getSessionThunk_failure_is_silent `{Json TokenMetadata, Json User}
    (w : World) (state : AuthSlice.AuthState) (e : AuthError) :
  (getSession w).1 = Err e →
  let state' := (AuthSlice.getSessionThunk w state).2 in
  AuthSlice.error state' = None
  ∧ AuthSlice.isAuthenticated state' = false
  ∧ AuthSlice.loading state' = false.
Proof.
  unfold AuthSlice.getSessionThunk.
  destruct (getSession w) as [[[u t]|e'] w']; simpl; [discriminate|done].
Qed.

(** ** Login and the credential overlay *)

Section Login.
Context `{Json TokenMetadata, Json User}.

(** [login] scans the fetched directory as it is: its outcome is
    [INVALID_CREDENTIALS] exactly when no directory record carries that
    email and password.  Nothing stored under [custom_users] is read. *)
Lemma login_scans_directory users c w :
  (∃ msg, (login (Some users) c w).1 = Err (mkAuthError INVALID_CREDENTIALS msg))
  ↔ ∀ u, u ∈ users →
         ¬ (cred_email u = login_email c ∧ cred_password u = login_password c).
Proof.
  unfold login.
  destruct (find _ users) as [u|] eqn:F.
  - apply find_some in F as [I M]. apply andb_prop in M as [E P].
    apply String.eqb_eq in E, P. split.
    + intros (msg & D). discriminate D.
    + intros N. exfalso. apply (N u); [by apply list_elem_of_In|done].
  - split; [|by eexists].
    intros _ u I [E P]. apply list_elem_of_In in I.
    pose proof (find_none _ _ F u I) as N; simpl in N.
    apply andb_false_iff in N as [N|N]; apply String.eqb_neq in N; congruence.
Qed.

End Login.

(** C3, evaluated on the code.  User "1" changes the password from
    "admin123" to "s3cret": the merged user list [getAllUsers] now carries
    "s3cret", but [login] still rejects "s3cret" with [INVALID_CREDENTIALS]
    and still accepts "admin123". *)
Theorem login_after_password_change :
  (changePassword (H := Codec.Json_credentials) (Some Sample.directory)
     "1" "admin123" "s3cret" Sample.fresh).1 = Ok ()
  ∧ cred_password
      <$> getUserById (H := Codec.Json_credentials) (Some Sample.directory) "1"
            SampleSessions.password_changed
    = Some "s3cret"
  ∧ (login (H := Codec.Json_TokenMetadata) (H0 := Codec.Json_User)
       (Some Sample.directory)
       (mkLoginCredentials "admin@example.com" "s3cret")
       SampleSessions.password_changed).1
    = Err (mkAuthError INVALID_CREDENTIALS "이메일 또는 비밀번호가 올바르지 않습니다.")
  ∧ response_user
      <$> (match (login (H := Codec.Json_TokenMetadata) (H0 := Codec.Json_User)
                    (Some Sample.directory)
                    (mkLoginCredentials "admin@example.com" "admin123")
                    SampleSessions.password_changed).1
           with Ok r => Some r | Err _ => None end)
    = Some SampleSessions.admin_user.
Proof. repeat split. Qed.

(** ** Request pipeline *)

Section Pipeline.
Import AxiosInstance.
Context `{Json TokenMetadata}.

#[local] Arguments requestInterceptor : simpl never.
#[local] Arguments renew : simpl never.
#[local] Arguments axiosInstance : simpl never.

Lemma requestInterceptor_isRetry c e : _isRetry (requestInterceptor c e) = _isRetry c.
Proof.
  unfold requestInterceptor.
  repeat match goal with
         | |- context [match ?x with _ => _ end] => destruct x
         end; done.
Qed.

Lemma send_wire net c e : wire (send net c e).2 = c :: wire e.
Proof. done. Qed.

Lemma send_uuid_next net c e : uuid_next (world (send net c e).2) = uuid_next (world e).
Proof. done. Qed.

Lemma renew_wire e : wire (renew e).2 = wire e.
Proof. unfold renew. by repeat case_match. Qed.

Lemma refreshAccessToken_uuid_next r w :
  (uuid_next (refreshAccessToken r w).2 ≤ S (uuid_next w))%nat.
Proof.
  unfold refreshAccessToken, generateAccessToken, uuidv4.
  repeat case_match; simpl; lia.
Qed.

Lemma renew_uuid_next e :
  (uuid_next (world (renew e).2) ≤ S (uuid_next (world e)))%nat.
Proof.
  unfold renew.
  destruct (getStoredTokens (world e)) as [tokens|]; simpl; [|lia].
  pose proof (refreshAccessToken_uuid_next (refreshToken tokens) (world e)) as L.
  repeat case_match; simplify_eq/=; lia.
Qed.

Lemma axiosInstance_unfold fuel net c e :
  axiosInstance (S fuel) net c e
  = let c1 := requestInterceptor c e in
    let e1 := (send net c1 e).2 in
    match reply_status (net (length (wire e)) c1) with
    | Some s =>
        if bool_decide (200 ≤ s < 300) then Some (inl (mkResponse s c1), e1)
        else responseRejected (axiosInstance fuel net) (mkError c1 (Some s)) e1
    | None => responseRejected (axiosInstance fuel net) (mkError c1 None) e1
    end.
Proof. done. Qed.

Lemma responseRejected_skip resend err e :
  _isRetry (error_config err) = true →
  responseRejected resend err e = Some (inr err, e).
Proof. unfold responseRejected. intros ->. by rewrite andb_false_r. Qed.

Lemma responseRejected_401 resend c e :
  _isRetry c = false →
  responseRejected resend (mkError c (Some 401)) e
  = match renew e with
    | (Some t, e1) =>
        resend (set_header "Authorization" ("Bearer " +:+ t) (flagged c)) e1
    | (None, e1) =>
        Some (inr (mkError (flagged c) (Some 401)),
              set_href "/login" (dispatch AuthSlice.clearAuth e1))
    end.
Proof.
  unfold responseRejected. cbn [error_config response_status]. intros ->.
  by rewrite bool_decide_eq_true_2.
Qed.

(** A request that already carries the flag is sent once and its 401 is
    handed to the caller: the handler neither renews nor resends. *)
Lemma axiosInstance_flagged fuel net c e :
  always_401 net → _isRetry c = true →
  axiosInstance (S fuel) net c e
  = Some (inr (mkError (requestInterceptor c e) (Some 401)),
          (send net (requestInterceptor c e) e).2).
Proof.
  intros N F. rewrite axiosInstance_unfold. cbv zeta. rewrite N.
  rewrite bool_decide_eq_false_2 by lia.
  apply responseRejected_skip. cbn [error_config].
  by rewrite requestInterceptor_isRetry.
Qed.

(** C1.  Against a remote end that answers 401 to everything, one call of
    the instance ends in failure with status 401 after putting the request
    on the wire once or twice: at most one resend.  At most one token is
    minted, the surfaced failure carries the [_isRetry] flag, and a resend
    happens only for a request that came in without the flag and is itself
    flagged.  Two units of fuel are enough for the call to finish. *)
Theorem at_most_one_resend
    (net : Network) (c : InternalAxiosRequestConfig) (e : Env) (fuel : nat) :
  always_401 net →
  (2 ≤ fuel)%nat →
  ∃ err e',
    axiosInstance fuel net c e = Some (inr err, e')
    ∧ response_status err = Some 401
    ∧ _isRetry (error_config err) = true
    ∧ ((∃ sent, wire e' = sent :: wire e)
       ∨ (∃ resent sent, wire e' = resent :: sent :: wire e
            ∧ _isRetry sent = false ∧ _isRetry resent = true))
    ∧ (uuid_next (world e') ≤ 1 + uuid_next (world e))%nat.
Proof.
  intros N F. destruct fuel as [|[|fuel]]; [lia..|].
  destruct (_isRetry c) eqn:R.
  { rewrite (axiosInstance_flagged _ net c e N R).
    eexists _, _. split; [done|]. cbn [error_config response_status].
    split; [done|]. split; [by rewrite requestInterceptor_isRetry|].
    split; [left; by eexists|]. rewrite send_uuid_next. lia. }
  rewrite axiosInstance_unfold. cbv zeta. rewrite N.
  rewrite bool_decide_eq_false_2 by lia.
  rewrite responseRejected_401 by (by rewrite requestInterceptor_isRetry).
  set (c1 := requestInterceptor c e).
  set (e1 := (send net c1 e).2).
  pose proof (renew_wire e1) as W. pose proof (renew_uuid_next e1) as U.
  change (wire e1) with (c1 :: wire e) in W.
  change (uuid_next (world e1)) with (uuid_next (world e)) in U.
  destruct (renew e1) as [[t|] e2]; cbn [fst snd] in W, U.
  - rewrite (axiosInstance_flagged _ net _ e2 N) by done.
    eexists _, _. split; [done|]. cbn [error_config response_status].
    split; [done|]. split; [by rewrite requestInterceptor_isRetry|].
    rewrite send_wire, send_uuid_next, W.
    split; [|lia]. right. eexists _, _. split; [done|].
    split; [by unfold c1; rewrite requestInterceptor_isRetry|].
    by rewrite requestInterceptor_isRetry.
  - eexists _, _. split; [done|]. cbn [error_config response_status].
    split; [done|]. split; [done|].
    split; [left; by exists c1|]. cbn. lia.
Qed.

End Pipeline.

Lemma at_most_one_resend_witness :
  ∃ err e',
    AxiosInstance.axiosInstance (H := Codec.Json_TokenMetadata) 2
      SamplePipeline.rejecting SamplePipeline.request SamplePipeline.env
    = Some (inr err, e')
    ∧ AxiosInstance.response_status err = Some 401
    ∧ (uuid_next (AxiosInstance.world e')
       ≤ 1 + uuid_next (AxiosInstance.world SamplePipeline.env))%nat.
Proof.
  destruct (at_most_one_resend (H := Codec.Json_TokenMetadata)
              SamplePipeline.rejecting SamplePipeline.request SamplePipeline.env 2)
    as (err & e' & E & S & _ & _ & U).
  - intros n c. reflexivity.
  - apply le_n.
  - exists err, e'. split; [exact E|]. split; [exact S|exact U].
Defined.

(** * Further properties of the code *)

(** ** Token store *)

(** [saveTokens] then [getStoredTokens] gives the pair back when both
    tokens are non-empty and nothing otherwise; no other key is written. *)
Theorem saveTokens_getStoredTokens (p : TokenPair) (w : World) :
  getStoredTokens (saveTokens p w)
  = (if truthy (Some (accessToken p)) && truthy (Some (refreshToken p))
     then Some p else None)
  ∧ (∀ k, k ≠ "accessToken" → k ≠ "refreshToken" →
          getItem k (saveTokens p w) = getItem k w)
  ∧ clock (saveTokens p w) = clock w
  ∧ uuid_next (saveTokens p w) = uuid_next w.
Proof.
  destruct p as [a r]. split; [|split; [|done]].
  - unfold getStoredTokens, saveTokens. cbn [accessToken refreshToken].
    rewrite !getItem_setItem.
    change STORAGE_KEYS.ACCESS_TOKEN with "accessToken".
    change STORAGE_KEYS.REFRESH_TOKEN with "refreshToken".
    repeat case_decide; try done. by destruct a, r.
  - intros k A R. unfold saveTokens. rewrite !getItem_setItem.
    change STORAGE_KEYS.ACCESS_TOKEN with "accessToken".
    change STORAGE_KEYS.REFRESH_TOKEN with "refreshToken".
    by rewrite !decide_False by done.
Qed.

Lemma saveTokens_getStoredTokens_witness :
  getItem "userInfo"
    (saveTokens {| accessToken := "a"; refreshToken := "r" |} Sample.logged_in)
  = getItem "userInfo" Sample.logged_in.
Proof.
  apply (saveTokens_getStoredTokens {| accessToken := "a"; refreshToken := "r" |}
           Sample.logged_in); discriminate.
Defined.

Lemma next_uuid_nonempty w : next_uuid w ≠ "".
Proof. done. Qed.

Section TokenStoreMore.
Context `{Json TokenMetadata}.

Lemma getTokenMetadata_setItem t k v w :
  getTokenMetadata t (setItem k v w)
  = if decide (k = token_meta_key t)
    then (if truthy (Some v) then JSON_parse v else None)
    else getTokenMetadata t w.
Proof.
  unfold getTokenMetadata. rewrite getItem_setItem.
  destruct (decide (k = token_meta_key t)) as [->|N]; [|done].
  by destruct v.
Qed.

Lemma getTokenMetadata_stringify t m w :
  getTokenMetadata t (setItem (token_meta_key t) (JSON_stringify m) w) = Some m.
Proof.
  rewrite getTokenMetadata_setItem, decide_True by done.
  destruct (JSON_stringify m) as [|c s] eqn:E.
  - by apply JSON_stringify_nonempty in E.
  - simpl. rewrite <- E. apply JSON_parse_stringify.
Qed.

Lemma isTokenValid_Some t w m :
  t ≠ "" → getTokenMetadata t w = Some m →
  isTokenValid (Some t) w = bool_decide (clock w < expiresAt m).
Proof.
  intros N M. unfold isTokenValid.
  apply truthy_Some in N. rewrite N; simpl. by rewrite M.
Qed.

Lemma getTokenMetadata_later t now w :
  getTokenMetadata t (later now w) = getTokenMetadata t w.
Proof. done. Qed.

Lemma generateAccessToken_getItem u w k :
  getItem k (generateAccessToken u w).2
  = if decide (k = token_meta_key (next_uuid w))
    then Some (JSON_stringify
                 {| userId := user_id u; email := user_email u; role := user_role u;
                    issuedAt := clock w; expiresAt := clock w + ACCESS_TOKEN_EXPIRY |})
    else getItem k w.
Proof.
  unfold generateAccessToken, uuidv4; cbn [fst snd]. rewrite getItem_setItem.
  repeat case_decide; by subst.
Qed.

Lemma generateRefreshToken_getItem u w k :
  getItem k (generateRefreshToken u w).2
  = if decide (k = token_meta_key (next_uuid w))
    then Some (JSON_stringify
                 {| userId := user_id u; email := user_email u; role := user_role u;
                    issuedAt := clock w; expiresAt := clock w + REFRESH_TOKEN_EXPIRY |})
    else getItem k w.
Proof.
  unfold generateRefreshToken, uuidv4; cbn [fst snd]. rewrite getItem_setItem.
  repeat case_decide; by subst.
Qed.

(** The token issued second by [createTokenPair]. *)
Definition second_uuid (w : World) : string := next_uuid (uuidv4 w).2.

Lemma createTokenPair_eq u w :
  createTokenPair u w
  = ({| accessToken := next_uuid w; refreshToken := second_uuid w |},
     (generateRefreshToken u (generateAccessToken u w).2).2).
Proof. done. Qed.

Lemma createTokenPair_lifetimes_facts (u : User) (w : World) :
  let p := (createTokenPair u w).1 in
  let w' := (createTokenPair u w).2 in
  getTokenMetadata (refreshToken p) w'
  = Some {| userId := user_id u; email := user_email u; role := user_role u;
            issuedAt := clock w; expiresAt := clock w + 7 * 24 * 60 * 60 * 1000 |}
  ∧ (accessToken p ≠ refreshToken p →
     getTokenMetadata (accessToken p) w'
     = Some {| userId := user_id u; email := user_email u; role := user_role u;
               issuedAt := clock w; expiresAt := clock w + 15 * 60 * 1000 |})
  ∧ isTokenValid (Some (accessToken p)) w' = true
  ∧ isTokenValid (Some (refreshToken p)) w' = true
  ∧ clock w' = clock w
  ∧ uuid_next w' = S (S (uuid_next w))
  ∧ (∀ k, k ≠ token_meta_key (accessToken p) → k ≠ token_meta_key (refreshToken p) →
          getItem k w' = getItem k w).
Proof.
  intros p w'. unfold p, w'. rewrite createTokenPair_eq; cbn [fst snd accessToken refreshToken].
  assert (R : getTokenMetadata (second_uuid w) (generateRefreshToken u (generateAccessToken u w).2).2
              = Some {| userId := user_id u; email := user_email u; role := user_role u;
                        issuedAt := clock w;
                        expiresAt := clock w + 7 * 24 * 60 * 60 * 1000 |}).
  { exact (getTokenMetadata_stringify (second_uuid w) _ _). }
  assert (A : next_uuid w ≠ second_uuid w →
              getTokenMetadata (next_uuid w) (generateRefreshToken u (generateAccessToken u w).2).2
              = Some {| userId := user_id u; email := user_email u; role := user_role u;
                        issuedAt := clock w; expiresAt := clock w + 15 * 60 * 1000 |}).
  { intros N. unfold generateRefreshToken; cbn [fst snd uuidv4].
    rewrite getTokenMetadata_setItem. rewrite decide_False.
    - exact (getTokenMetadata_stringify (next_uuid w) _ _).
    - intros E. apply token_meta_key_inj in E. by apply N. }
  split; [exact R|]. split; [exact A|].
  split; [|split; [|split; [done|split; [done|]]]].
  - destruct (decide (next_uuid w = second_uuid w)) as [E|N].
    + rewrite E. rewrite (isTokenValid_Some (second_uuid w) _ _ (next_uuid_nonempty _) R).
      apply bool_decide_eq_true_2. simpl. lia.
    + rewrite (isTokenValid_Some (next_uuid w) _ _ (next_uuid_nonempty _) (A N)).
      apply bool_decide_eq_true_2. simpl. lia.
  - rewrite (isTokenValid_Some (second_uuid w) _ _ (next_uuid_nonempty _) R).
    apply bool_decide_eq_true_2. simpl. lia.
  - intros k NA NR.
    rewrite generateRefreshToken_getItem, generateAccessToken_getItem.
    rewrite decide_False by exact NR. by rewrite decide_False by exact NA.
Qed.

(** A freshly issued pair.  The refresh token's record lasts seven days;
    the access token's record lasts fifteen minutes provided the two
    identifiers differ (were they equal, the later record would replace the
    earlier one).  Both tokens are valid at once, whatever the case; the
    clock is not touched and two identifiers are consumed. *)
Theorem createTokenPair_lifetimes (u : User) (w : World) :
  let p := (createTokenPair u w).1 in
  let w' := (createTokenPair u w).2 in
  getTokenMetadata (refreshToken p) w'
  = Some {| userId := user_id u; email := user_email u; role := user_role u;
            issuedAt := clock w; expiresAt := clock w + 7 * 24 * 60 * 60 * 1000 |}
  ∧ (accessToken p ≠ refreshToken p →
     getTokenMetadata (accessToken p) w'
     = Some {| userId := user_id u; email := user_email u; role := user_role u;
               issuedAt := clock w; expiresAt := clock w + 15 * 60 * 1000 |})
  ∧ isTokenValid (Some (accessToken p)) w' = true
  ∧ isTokenValid (Some (refreshToken p)) w' = true
  ∧ clock w' = clock w
  ∧ uuid_next w' = S (S (uuid_next w))
  ∧ (∀ k, k ≠ token_meta_key (accessToken p) → k ≠ token_meta_key (refreshToken p) →
          getItem k w' = getItem k w).
Proof. exact (createTokenPair_lifetimes_facts u w). Qed.

(** The time left on a non-empty token is positive exactly when the token
    is valid; it is never negative, and zero for a token without a record. *)
Theorem getTokenTimeRemaining_positive_iff_valid (t : string) (w : World) :
  0 ≤ getTokenTimeRemaining t w
  ∧ (getTokenMetadata t w = None → getTokenTimeRemaining t w = 0)
  ∧ (t ≠ "" → (0 < getTokenTimeRemaining t w ↔ isTokenValid (Some t) w = true))
  ∧ (∀ m, getTokenMetadata t w = Some m → clock w < expiresAt m →
          getTokenTimeRemaining t w = expiresAt m - clock w).
Proof.
  unfold getTokenTimeRemaining, Date_now.
  destruct (getTokenMetadata t w) as [m|] eqn:M.
  - split; [lia|]. split; [done|]. split.
    + intros N. rewrite (isTokenValid_Some t w m N M), bool_decide_eq_true. lia.
    + intros m' [= <-] L. lia.
  - split; [done|]. split; [done|]. split; [|done].
    intros N. split; [lia|]. intros V.
    apply isTokenValid_metadata in V as (_ & m & M' & _). congruence.
Qed.

(** [getUserFromToken] on a token just issued for [u] gives back the id,
    email and role of [u]; the name is empty and the avatar is gone.  A
    token without a record gives nothing. *)
Theorem getUserFromToken_after_issue (u : User) (w : World) :
  getUserFromToken (generateAccessToken u w).1 (generateAccessToken u w).2
  = Some {| user_id := user_id u; user_email := user_email u; user_name := "";
            user_role := user_role u; user_avatar := None |}
  ∧ (∀ t, getItem (token_meta_key t) w = None → getUserFromToken t w = None).
Proof.
  split.
  - unfold getUserFromToken. by rewrite generateAccessToken_metadata.
  - intros t N. unfold getUserFromToken, getTokenMetadata. by rewrite N.
Qed.

End TokenStoreMore.

Lemma createTokenPair_lifetimes_witness :
  getTokenMetadata (H := Codec.Json_TokenMetadata) "uuid-0"
    (createTokenPair (H := Codec.Json_TokenMetadata)
       SampleSessions.admin_user Sample.fresh).2
  = Some {| userId := "1"; email := "admin@example.com"; role := admin;
            issuedAt := 1000; expiresAt := 1000 + 15 * 60 * 1000 |}.
Proof.
  destruct (createTokenPair_lifetimes (H := Codec.Json_TokenMetadata)
              SampleSessions.admin_user Sample.fresh) as (_ & distinct & _).
  apply distinct. vm_compute. discriminate.
Defined.

Lemma getTokenTimeRemaining_positive_iff_valid_witness :
  0 < getTokenTimeRemaining (H := Codec.Json_TokenMetadata) "uuid-0" Sample.logged_in
  ∧ getTokenTimeRemaining (H := Codec.Json_TokenMetadata) "uuid-9" Sample.logged_in = 0.
Proof.
  split.
  - apply (getTokenTimeRemaining_positive_iff_valid (H := Codec.Json_TokenMetadata)
             "uuid-0" Sample.logged_in); [discriminate|reflexivity].
  - apply (getTokenTimeRemaining_positive_iff_valid (H := Codec.Json_TokenMetadata)
             "uuid-9" Sample.logged_in). reflexivity.
Defined.

Lemma getUserFromToken_after_issue_witness :
  getUserFromToken (H := Codec.Json_TokenMetadata) "uuid-9" Sample.logged_in = None.
Proof.
  apply (getUserFromToken_after_issue (H := Codec.Json_TokenMetadata)
           SampleSessions.admin_user Sample.logged_in). reflexivity.
Defined.

(** ** Session manager: login *)

Section LoginMore.
Context `{Json TokenMetadata, Json User}.

Lemma getStoredTokens_frame w1 w2 :
  getItem "accessToken" w1 = getItem "accessToken" w2 →
  getItem "refreshToken" w1 = getItem "refreshToken" w2 →
  getStoredTokens w1 = getStoredTokens w2.
Proof.
  unfold getStoredTokens.
  change STORAGE_KEYS.ACCESS_TOKEN with "accessToken".
  change STORAGE_KEYS.REFRESH_TOKEN with "refreshToken".
  by intros -> ->.
Qed.

Lemma cached_user_stringify u w :
  cached_user (setItem STORAGE_KEYS.USER_INFO (JSON_stringify u) w) = Some u.
Proof.
  unfold cached_user. rewrite getItem_setItem, decide_True by done; simpl.
  apply JSON_parse_stringify.
Qed.

Lemma getCurrentUser_cached w : getCurrentUser w = cached_user w.
Proof.
  unfold getCurrentUser, cached_user.
  destruct (getItem STORAGE_KEYS.USER_INFO w) as [[|c s]|]; simpl; [|done..].
  by rewrite JSON_parse_empty.
Qed.

(** The world a successful [login] leaves behind. *)
Definition logged_in_as (u : UserCredential) (w : World) : World :=
  setItem STORAGE_KEYS.USER_INFO (JSON_stringify (user_of_credential u))
    (saveTokens (createTokenPair (user_of_credential u) w).1
       (createTokenPair (user_of_credential u) w).2).

Lemma login_found users c w u :
  find (λ u, String.eqb (cred_email u) (login_email c)
             && String.eqb (cred_password u) (login_password c)) users = Some u →
  login (Some users) c w
  = (Ok {| response_user := user_of_credential u;
           response_tokens := (createTokenPair (user_of_credential u) w).1 |},
     logged_in_as u w).
Proof. unfold login. by intros ->. Qed.

Lemma login_Ok f c w r :
  (login f c w).1 = Ok r →
  ∃ users u, f = Some users ∧ u ∈ users ∧ matches c u
    ∧ r = {| response_user := user_of_credential u;
             response_tokens := (createTokenPair (user_of_credential u) w).1 |}
    ∧ (login f c w).2 = logged_in_as u w.
Proof.
  destruct f as [users|]; [|discriminate].
  destruct (find (λ u, String.eqb (cred_email u) (login_email c)
                       && String.eqb (cred_password u) (login_password c)) users)
    as [u|] eqn:F.
  - rewrite (login_found users c w u F). intros [= <-].
    apply find_some in F as [I M]. apply andb_prop in M as [E P].
    apply String.eqb_eq in E, P.
    exists users, u. repeat split; try done. by apply list_elem_of_In.
  - unfold login. rewrite F. discriminate.
Qed.

Lemma logged_in_as_getItem u w k :
  getItem k (logged_in_as u w)
  = if decide (k = "userInfo") then Some (JSON_stringify (user_of_credential u))
    else if decide (k = "refreshToken") then Some (second_uuid w)
    else if decide (k = "accessToken") then Some (next_uuid w)
    else getItem k (createTokenPair (user_of_credential u) w).2.
Proof.
  unfold logged_in_as, saveTokens. rewrite createTokenPair_eq.
  cbn [fst snd accessToken refreshToken]. rewrite !getItem_setItem.
  change STORAGE_KEYS.USER_INFO with "userInfo".
  change STORAGE_KEYS.ACCESS_TOKEN with "accessToken".
  change STORAGE_KEYS.REFRESH_TOKEN with "refreshToken".
  repeat case_decide; by subst.
Qed.

Lemma logged_in_as_valid u w t :
  isTokenValid (Some t) (logged_in_as u w)
  = isTokenValid (Some t) (createTokenPair (user_of_credential u) w).2.
Proof.
  apply isTokenValid_frame; [|done].
  rewrite logged_in_as_getItem. by rewrite !decide_False by done.
Qed.

Lemma logged_in_as_stored u w :
  getStoredTokens (logged_in_as u w)
  = Some {| accessToken := next_uuid w; refreshToken := second_uuid w |}.
Proof.
  apply getStoredTokens_Some. rewrite !logged_in_as_getItem.
  repeat case_decide; done.
Qed.

Lemma login_failure_leaves_world_facts
    (f : option (list UserCredential)) (c : LoginCredentials) (w : World) (e : AuthError) :
  (login f c w).1 = Err e →
  (login f c w).2 = w
  ∧ (code e = TOKEN_INVALID ↔ f = None)
  ∧ (code e = INVALID_CREDENTIALS
     ↔ ∃ users, f = Some users ∧ ∀ u, u ∈ users → ¬ matches c u).
Proof.
  destruct f as [users|].
  - destruct (find (λ u, String.eqb (cred_email u) (login_email c)
                         && String.eqb (cred_password u) (login_password c)) users)
      as [u|] eqn:F.
    + by rewrite (login_found users c w u F).
    + unfold login. rewrite F. intros [= <-]; simpl.
      split; [done|]. split; [done|]. split; [|done]. intros _.
      exists users. split; [done|]. intros u I [E P].
      apply list_elem_of_In in I.
      pose proof (find_none _ _ F u I) as N; simpl in N.
      apply andb_false_iff in N as [N|N]; apply String.eqb_neq in N; congruence.
  - intros [= <-]; simpl. split; [done|]. split; [done|].
    split; [done|]. by intros (users & ? & _).
Qed.

(** A failed [login] writes nothing, and its code tells why: [TOKEN_INVALID]
    exactly when the directory could not be fetched, [INVALID_CREDENTIALS]
    when it was fetched and no record matches. *)
Theorem login_failure_leaves_world
    (f : option (list UserCredential)) (c : LoginCredentials) (w : World) (e : AuthError) :
  (login f c w).1 = Err e →
  (login f c w).2 = w
  ∧ (code e = TOKEN_INVALID ↔ f = None)
  ∧ (code e = INVALID_CREDENTIALS
     ↔ ∃ users, f = Some users ∧ ∀ u, u ∈ users → ¬ matches c u).
Proof. exact (login_failure_leaves_world_facts f c w e). Qed.

Lemma login_success_persists_facts
    (f : option (list UserCredential)) (c : LoginCredentials) (w : World)
    (r : LoginResponse) :
  (login f c w).1 = Ok r →
  let w' := (login f c w).2 in
  getStoredTokens w' = Some (response_tokens r)
  ∧ getCurrentUser w' = Some (response_user r)
  ∧ isTokenValid (Some (accessToken (response_tokens r))) w' = true
  ∧ isTokenValid (Some (refreshToken (response_tokens r))) w' = true
  ∧ isAuthenticated w' = true
  ∧ (∃ users u, f = Some users ∧ u ∈ users ∧ matches c u
       ∧ response_user r = user_of_credential u)
  ∧ getItem "custom_users" w' = getItem "custom_users" w
  ∧ clock w' = clock w.
Proof.
  intros L w'. unfold w'.
  destruct (login_Ok f c w r L) as (users & u & -> & I & M & -> & ->).
  cbn [response_user response_tokens].
  destruct (createTokenPair_lifetimes_facts (user_of_credential u) w)
    as (_ & _ & VA & VR & C & _ & F).
  rewrite createTokenPair_eq in VA, VR, F |- *.
  cbn [fst snd accessToken refreshToken] in *.
  rewrite logged_in_as_stored, getCurrentUser_cached.
  split; [done|]. split; [apply cached_user_stringify|].
  rewrite !logged_in_as_valid, createTokenPair_eq. cbn [snd].
  split; [done|]. split; [done|]. split.
  { unfold isAuthenticated. rewrite logged_in_as_stored; simpl.
    rewrite logged_in_as_valid, createTokenPair_eq. cbn [snd]. by rewrite VA. }
  split; [by exists users, u|]. split; [|done].
  rewrite logged_in_as_getItem, createTokenPair_eq. cbn [snd].
  rewrite !decide_False by done. by apply F.
Qed.

(** A successful [login] returns a user built from a matching directory
    record, and leaves the returned pair stored, the returned user cached
    under [userInfo], both tokens valid, and [custom_users] as it was. *)
Theorem login_success_persists
    (f : option (list UserCredential)) (c : LoginCredentials) (w : World)
    (r : LoginResponse) :
  (login f c w).1 = Ok r →
  let w' := (login f c w).2 in
  getStoredTokens w' = Some (response_tokens r)
  ∧ getCurrentUser w' = Some (response_user r)
  ∧ isTokenValid (Some (accessToken (response_tokens r))) w' = true
  ∧ isTokenValid (Some (refreshToken (response_tokens r))) w' = true
  ∧ isAuthenticated w' = true
  ∧ (∃ users u, f = Some users ∧ u ∈ users ∧ matches c u
       ∧ response_user r = user_of_credential u)
  ∧ getItem "custom_users" w' = getItem "custom_users" w
  ∧ clock w' = clock w.
Proof. exact (login_success_persists_facts f c w r). Qed.

(** Restoring the session right after a successful [login] returns the
    same user and access token and changes nothing: no renewal happens. *)
Theorem getSession_after_login
    (f : option (list UserCredential)) (c : LoginCredentials) (w : World)
    (r : LoginResponse) :
  (login f c w).1 = Ok r →
  getSession (login f c w).2
  = (Ok (response_user r, accessToken (response_tokens r)), (login f c w).2).
Proof.
  intros L.
  destruct (login_success_persists_facts f c w r L) as (S & U & VA & _).
  destruct (response_tokens r) as [a t] eqn:T. cbn [accessToken] in *.
  rewrite (getSession_valid _ a t S VA).
  apply restoreUser_cached. by rewrite <- getCurrentUser_cached.
Qed.

(** After a successful [login] at time [T], with the storage left alone,
    [isAuthenticated] holds at a time [now] exactly when [now] is before [T]
    plus seven days; at [T] plus seven days sharp it is false. *)
Theorem login_authenticated_for_seven_days
    (f : option (list UserCredential)) (c : LoginCredentials) (w : World)
    (r : LoginResponse) (now : Z) :
  (login f c w).1 = Ok r →
  isAuthenticated (later now (login f c w).2)
  = bool_decide (now < clock w + 7 * 24 * 60 * 60 * 1000).
Proof.
  intros L.
  destruct (login_Ok f c w r L) as (users & u & -> & I & M & -> & ->).
  destruct (createTokenPair_lifetimes_facts (user_of_credential u) w)
    as (MR & MA & _).
  rewrite createTokenPair_eq in MR, MA. cbn [fst snd accessToken refreshToken] in *.
  assert (S : getStoredTokens (later now (logged_in_as u w))
              = Some {| accessToken := next_uuid w; refreshToken := second_uuid w |}).
  { rewrite <- (logged_in_as_stored u w). by apply getStoredTokens_frame. }
  assert (G : ∀ t, getTokenMetadata t (later now (logged_in_as u w))
                   = getTokenMetadata t (generateRefreshToken (user_of_credential u)
                        (generateAccessToken (user_of_credential u) w).2).2).
  { intros t. rewrite getTokenMetadata_later. apply getTokenMetadata_frame.
    rewrite logged_in_as_getItem, createTokenPair_eq. cbn [snd].
    by rewrite !decide_False by done. }
  unfold isAuthenticated. rewrite S; cbn [accessToken refreshToken].
  rewrite (isTokenValid_Some (second_uuid w) _ _ (next_uuid_nonempty _)
             (eq_trans (G _) MR)).
  cbn [clock later expiresAt].
  destruct (decide (next_uuid w = second_uuid w)) as [E|N].
  - rewrite E.
    rewrite (isTokenValid_Some (second_uuid w) _ _ (next_uuid_nonempty _)
               (eq_trans (G _) MR)).
    cbn [clock later expiresAt]. apply orb_diag.
  - rewrite (isTokenValid_Some (next_uuid w) _ _ (next_uuid_nonempty _)
               (eq_trans (G _) (MA N))).
    cbn [clock later expiresAt].
    destruct (bool_decide (now < clock w + 15 * 60 * 1000)) eqn:B; [|done].
    apply bool_decide_eq_true in B. simpl. symmetry.
    apply bool_decide_eq_true_2. lia.
Qed.

End LoginMore.

(** ** Session manager: restoration, renewal, logout *)

Section SessionMore.
Context `{Json TokenMetadata, Json User}.

Lemma clearTokens_pair_gone w : getStoredTokens (clearTokens w) = None.
Proof.
  apply getStoredTokens_None. left.
  rewrite (clearTokens_cleared w "accessToken"); [done|].
  unfold session_keys. apply list_elem_of_here.
Qed.

Lemma clearTokens_other_meta w t :
  getItem "accessToken" w ≠ Some t → getItem "refreshToken" w ≠ Some t →
  getItem (token_meta_key t) (clearTokens w) = getItem (token_meta_key t) w.
Proof.
  intros NA NR. rewrite clearTokens_getItem. rewrite decide_False; [done|].
  unfold session_keys, stored_token.
  change STORAGE_KEYS.ACCESS_TOKEN with "accessToken".
  change STORAGE_KEYS.REFRESH_TOKEN with "refreshToken".
  intros I.
  destruct (getItem "accessToken" w) as [[|c a]|];
    destruct (getItem "refreshToken" w) as [[|c' r]|]; simpl in I;
    repeat (apply elem_of_cons in I as [I|I];
            [first [ by (unfold token_meta_key in I; discriminate I)
                   | apply token_meta_key_inj in I; congruence ]|]);
    by apply elem_of_nil in I.
Qed.

(** After [logout] nothing of the session can be read back: restoration and
    manual renewal fail with [SESSION_NOT_FOUND] and write nothing, the
    lenient check is false, and there is no access token and no current
    user.  The credential overlay survives. *)
Theorem logout_ends_session (w : World) :
  let w' := (logout w).2 in
  (∃ msg, getSession w' = (Err (mkAuthError SESSION_NOT_FOUND msg), w'))
  ∧ (∃ msg, manualRefreshToken w' = (Err (mkAuthError SESSION_NOT_FOUND msg), w'))
  ∧ isAuthenticated w' = false
  ∧ getAccessToken w' = None
  ∧ getCurrentUser w' = None
  ∧ getItem "custom_users" w' = getItem "custom_users" w.
Proof.
  intros w'. unfold w', logout; cbn [snd].
  pose proof (clearTokens_pair_gone w) as G.
  split; [eexists; by apply getSession_no_pair|].
  split; [eexists; unfold manualRefreshToken; by rewrite G|].
  split; [unfold isAuthenticated; by rewrite G|].
  split; [unfold getAccessToken; by rewrite G|].
  split.
  - unfold getCurrentUser.
    rewrite (clearTokens_cleared w STORAGE_KEYS.USER_INFO); [done|].
    unfold session_keys. do 2 apply list_elem_of_further. apply list_elem_of_here.
  - rewrite clearTokens_getItem. rewrite decide_False; [done|].
    unfold session_keys, stored_token. intros I.
    destruct (getItem STORAGE_KEYS.ACCESS_TOKEN w) as [[|c a]|];
      destruct (getItem STORAGE_KEYS.REFRESH_TOKEN w) as [[|c' r]|]; simpl in I;
      repeat (apply elem_of_cons in I as [I|I]; [discriminate I|]);
      by apply elem_of_nil in I.
Qed.

(** [manualRefreshToken] renews whether or not the stored access token is
    still valid.  Without a stored pair it fails with [SESSION_NOT_FOUND] and
    writes nothing; with an invalid refresh token it clears the session and
    fails with [TOKEN_EXPIRED]; with a valid one it returns a new valid
    access token and stores it next to the unchanged refresh token. *)
Theorem manualRefreshToken_outcomes (w : World) :
  (getStoredTokens w = None →
   ∃ msg, manualRefreshToken w = (Err (mkAuthError SESSION_NOT_FOUND msg), w))
  ∧ (∀ a r, getStoredTokens w = Some {| accessToken := a; refreshToken := r |} →
       (isTokenValid (Some r) w = false →
        ∃ msg, manualRefreshToken w
               = (Err (mkAuthError TOKEN_EXPIRED msg), clearTokens w))
       ∧ (isTokenValid (Some r) w = true →
          ∃ w', manualRefreshToken w = (Ok (next_uuid w), w')
              ∧ getStoredTokens w'
                = Some {| accessToken := next_uuid w; refreshToken := r |}
              ∧ isTokenValid (Some (next_uuid w)) w' = true
              ∧ uuid_next w' = S (uuid_next w))).
Proof.
  split.
  { intros N. eexists. unfold manualRefreshToken. by rewrite N. }
  intros a r S. split.
  - intros R. eexists. unfold manualRefreshToken. rewrite S; cbn [refreshToken].
    by rewrite (refreshAccessToken_invalid r w R).
  - intros R. unfold manualRefreshToken. rewrite S; cbn [refreshToken].
    destruct (refreshAccessToken_valid r w R) as (m & M & ->).
    exists (renewed w r m). split; [done|].
    assert (N : r ≠ "") by (apply getStoredTokens_Some in S; tauto).
    split; [by apply renewed_stored|]. split; [apply renewed_token_valid|done].
Qed.

(** A cached user that cannot be read back is treated as a fault: with a
    valid stored access token and an unreadable, non-empty [userInfo]
    entry, [getSession] fails with [TOKEN_INVALID] and removes the stored
    pair. *)
Theorem getSession_unreadable_user (w : World) (a r s : string) :
  getStoredTokens w = Some {| accessToken := a; refreshToken := r |} →
  isTokenValid (Some a) w = true →
  getItem "userInfo" w = Some s → s ≠ "" → JSON_parse (A := User) s = None →
  ∃ msg, getSession w = (Err (mkAuthError TOKEN_INVALID msg), clearTokens w)
       ∧ getStoredTokens (clearTokens w) = None
       ∧ getItem ("token_meta_" +:+ a) (clearTokens w) = None.
Proof.
  intros S V U N P. rewrite (getSession_valid w a r S V).
  unfold restoreUser. change STORAGE_KEYS.USER_INFO with "userInfo".
  rewrite U. apply truthy_Some in N. rewrite N; simpl. rewrite P.
  eexists. split; [done|]. split; [apply clearTokens_pair_gone|].
  apply clearTokens_cleared. unfold session_keys, stored_token.
  apply getStoredTokens_Some in S as (A & NA & _).
  change STORAGE_KEYS.ACCESS_TOKEN with "accessToken". rewrite A.
  apply truthy_Some in NA. rewrite NA; simpl.
  do 3 apply list_elem_of_further. apply list_elem_of_here.
Qed.

(** Superseded metadata is never reclaimed: when [getSession] renews an
    expired access token, the old token's [token_meta_] entry stays in
    storage, and a [logout] afterwards does not remove it either. *)
Theorem superseded_metadata_stays (w : World) (a r : string) :
  getStoredTokens w = Some {| accessToken := a; refreshToken := r |} →
  isTokenValid (Some a) w = false →
  isTokenValid (Some r) w = true →
  a ≠ r → a ≠ next_uuid w →
  getItem ("token_meta_" +:+ a) (getSession w).2 = getItem ("token_meta_" +:+ a) w
  ∧ getItem ("token_meta_" +:+ a) (logout (getSession w).2).2
    = getItem ("token_meta_" +:+ a) w.
Proof.
  intros S A R NR NU.
  destruct (getSession_renewed w a r S A R) as (m & M & ->).
  assert (K : getItem (token_meta_key a) (renewed w r m) = getItem (token_meta_key a) w).
  { rewrite renewed_getItem. rewrite !decide_False; [done|..]; try done.
    intros E. by apply token_meta_key_inj in E. }
  assert (C : getItem (token_meta_key a) (clearTokens (renewed w r m))
              = getItem (token_meta_key a) w).
  { rewrite clearTokens_other_meta; [done|..]; rewrite renewed_getItem.
    - rewrite decide_False, decide_True by done. congruence.
    - rewrite decide_True by done. congruence. }
  assert (T : (restoreUser (next_uuid w) (renewed w r m)).2 = renewed w r m
              ∨ (restoreUser (next_uuid w) (renewed w r m)).2
                = clearTokens (renewed w r m)).
  { unfold restoreUser. repeat case_match; auto. }
  change ("token_meta_" +:+ a) with (token_meta_key a).
  unfold logout; cbn [snd].
  destruct T as [-> | ->]; [by split|].
  by rewrite clearTokens_idempotent.
Qed.

(** With a readable cached user, [getSession] succeeds exactly when the
    lenient check [isAuthenticated] holds. *)
Theorem getSession_succeeds_iff_authenticated (w : World) (u : User) :
  cached_user w = Some u →
  ((∃ t w', getSession w = (Ok (u, t), w')) ↔ isAuthenticated w = true).
Proof.
  intros U. unfold isAuthenticated.
  destruct (getStoredTokens w) as [[a r]|] eqn:S; cbn [accessToken refreshToken].
  - destruct (isTokenValid (Some a) w) eqn:A; simpl.
    + split; [done|]. intros _. exists a, w.
      rewrite (getSession_valid w a r S A). by apply restoreUser_cached.
    + destruct (isTokenValid (Some r) w) eqn:R.
      * split; [done|]. intros _.
        destruct (getSession_renewed w a r S A R) as (m & M & ->).
        eexists _, _. apply restoreUser_cached. by rewrite renewed_cached_user.
      * rewrite (getSession_expired w a r S A R).
        split; [|done]. by intros (t & w' & E).
  - rewrite (getSession_no_pair w S). split; [|done]. by intros (t & w' & E).
Qed.

End SessionMore.

(** ** Credential overlay *)

Section Overlay.
Context `{Json (list UserCredential)}.

(** The overlay applied to one directory record. *)
Definition merged (customUsers : list UserCredential) (mockUser : UserCredential)
  : UserCredential :=
  default mockUser (find (λ u, String.eqb (cred_id u) (cred_id mockUser)) customUsers).

(** Replace the first entry satisfying [p], or append. *)
Definition upsert (p : UserCredential → bool) (y : UserCredential)
    (l : list UserCredential) : list UserCredential :=
  match findIndex p l with
  | Some existingIndex => <[existingIndex := y]> l
  | None => l ++ [y]
  end.

Lemma getCustomUsers_save l w : getCustomUsers (saveCustomUsers l w) = l.
Proof.
  unfold getCustomUsers, saveCustomUsers. rewrite getItem_setItem, decide_True by done.
  destruct (JSON_stringify l) as [|c s] eqn:E.
  - by apply JSON_stringify_nonempty in E.
  - simpl. rewrite <- E. by rewrite JSON_parse_stringify.
Qed.

Lemma getAllUsers_merged mock w :
  getAllUsers (Some mock) w = map (merged (getCustomUsers w)) mock.
Proof. done. Qed.

Lemma merged_id cs m : cred_id (merged cs m) = cred_id m.
Proof.
  unfold merged. destruct (find _ cs) as [x|] eqn:F; [|done]; simpl.
  apply find_some in F as [_ E]. by apply String.eqb_eq in E.
Qed.

Lemma find_merged cs mock i :
  find (λ u, String.eqb (cred_id u) i) (map (merged cs) mock)
  = merged cs <$> find (λ u, String.eqb (cred_id u) i) mock.
Proof.
  induction mock as [|m mock IH]; [done|]; simpl.
  rewrite merged_id. by destruct (String.eqb (cred_id m) i).
Qed.

Lemma getUserById_merged mock i w :
  getUserById (Some mock) i w
  = merged (getCustomUsers w) <$> find (λ u, String.eqb (cred_id u) i) mock.
Proof. unfold getUserById. rewrite getAllUsers_merged. apply find_merged. Qed.

Lemma upsert_cons p y x l :
  upsert p y (x :: l) = if p x then y :: l else x :: upsert p y l.
Proof.
  unfold upsert; simpl. destruct (p x); [done|].
  by destruct (findIndex p l).
Qed.

Lemma find_upsert_same p y l : p y = true → find p (upsert p y l) = Some y.
Proof.
  intros Y. induction l as [|x l IH].
  - unfold upsert; simpl. by rewrite Y.
  - rewrite upsert_cons. destruct (p x) eqn:X; simpl; [by rewrite Y|].
    by rewrite X.
Qed.

Lemma find_upsert_other p q y l :
  (∀ z, p z = true → q z = false) → q y = false →
  find q (upsert p y l) = find q l.
Proof.
  intros D Y. induction l as [|x l IH].
  - unfold upsert; simpl. by rewrite Y.
  - rewrite upsert_cons. destruct (p x) eqn:X; simpl.
    + by rewrite Y, (D x X).
    + by rewrite IH.
Qed.


Lemma changePassword_Ok f i cur new w :
  (changePassword f i cur new w).1 = Ok () →
  ∃ cu, getUserById f i w = Some cu ∧ cred_password cu = cur
      ∧ (4 ≤ length_utf16 new)%nat ∧ cur ≠ new
      ∧ (changePassword f i cur new w).2
        = saveCustomUsers
            (upsert (λ u, String.eqb (cred_id u) i)
               {| cred_id := cred_id cu; cred_email := cred_email cu;
                  cred_password := new; cred_name := cred_name cu;
                  cred_role := cred_role cu; cred_avatar := cred_avatar cu |}
               (getCustomUsers w)) w.
Proof.
  unfold changePassword.
  destruct (getUserById f i w) as [cu|]; [|discriminate].
  destruct (String.eqb (cred_password cu) cur) eqn:P; [|discriminate]. simpl.
  destruct (length_utf16 new <? 4)%nat eqn:L; [discriminate|].
  destruct (String.eqb cur new) eqn:S; [discriminate|]. intros _.
  apply String.eqb_eq in P. apply String.eqb_neq in S. apply Nat.ltb_ge in L.
  exists cu. by repeat split.
Qed.


(** After a successful [changePassword] the merged record of that user
    carries the new password and is otherwise the same; every other user's
    merged record is unchanged; only [custom_users] is written, so the
    session stays; and the old password is no longer accepted as the current
    one. *)
Theorem changePassword_success_effect
    (mock : list UserCredential) (i cur new : string) (w : World) :
  (changePassword (Some mock) i cur new w).1 = Ok () →
  let w' := (changePassword (Some mock) i cur new w).2 in
  (∃ cu, getUserById (Some mock) i w = Some cu
       ∧ getUserById (Some mock) i w'
         = Some {| cred_id := cred_id cu; cred_email := cred_email cu;
                   cred_password := new; cred_name := cred_name cu;
                   cred_role := cred_role cu; cred_avatar := cred_avatar cu |})
  ∧ (∀ j, j ≠ i → getUserById (Some mock) j w' = getUserById (Some mock) j w)
  ∧ (∀ k, k ≠ "custom_users" → getItem k w' = getItem k w)
  ∧ (∀ again, ∃ msg, (changePassword (Some mock) i cur again w').1
                     = Err (mkAuthError INVALID_PASSWORD msg)).
Proof.
  intros O w'. unfold w'.
  destruct (changePassword_Ok _ i cur new w O) as (cu & U & P & L & S & ->).
  set (updated := {| cred_id := cred_id cu; cred_email := cred_email cu;
                     cred_password := new; cred_name := cred_name cu;
                     cred_role := cred_role cu; cred_avatar := cred_avatar cu |}).
  assert (I : cred_id cu = i).
  { unfold getUserById in U. apply find_some in U as [_ E]. by apply String.eqb_eq in E. }
  assert (U' : getUserById (Some mock) i
                 (saveCustomUsers (upsert (λ u, String.eqb (cred_id u) i) updated
                                     (getCustomUsers w)) w) = Some updated).
  { rewrite getUserById_merged in U |- *. rewrite getCustomUsers_save.
    destruct (find (λ u, String.eqb (cred_id u) i) mock) as [m|] eqn:F; [|done].
    simpl. f_equal. apply find_some in F as [_ E]. apply String.eqb_eq in E.
    unfold merged. rewrite E.
    rewrite find_upsert_same; [done|]. simpl. rewrite I. apply String.eqb_refl. }
  split; [by exists cu|]. split; [|split].
  - intros j N. rewrite !getUserById_merged, getCustomUsers_save.
    destruct (find (λ u, String.eqb (cred_id u) j) mock) as [m|] eqn:F; [|done].
    simpl. f_equal. apply find_some in F as [_ E]. apply String.eqb_eq in E.
    unfold merged. rewrite E. f_equal. apply find_upsert_other.
    + intros z Z. apply String.eqb_eq in Z. apply String.eqb_neq. congruence.
    + simpl. apply String.eqb_neq. congruence.
  - intros k N. unfold saveCustomUsers. rewrite getItem_setItem.
    by rewrite decide_False by done.
  - intros again. unfold changePassword at 1. rewrite U'. simpl.
    apply String.eqb_neq in S. rewrite String.eqb_sym, S. by eexists.
Qed.

End Overlay.

Section Profile.
Context `{Json (list UserCredential), Json User}.

(** [updateProfile] fails with [USER_NOT_FOUND], writing nothing, when the id
    is not in the merged list.  Otherwise it succeeds: the absent parameters
    keep the current values (an empty name given is taken as the name), id,
    password and role are kept, the merged record becomes the updated one,
    other users are unchanged, and [userInfo] is overwritten with the
    updated user, whoever is logged in.  Tokens are not touched. *)
Theorem updateProfile_effect
    (mock : list UserCredential) (i : string) (params : UpdateProfileParams)
    (w : World) :
  (getUserById (Some mock) i w = None →
   ∃ msg, updateProfile (Some mock) i params w
          = (Err (mkAuthError USER_NOT_FOUND msg), w))
  ∧ (∀ cu, getUserById (Some mock) i w = Some cu →
       let updated :=
         {| cred_id := cred_id cu;
            cred_email := default (cred_email cu) (param_email params);
            cred_password := cred_password cu;
            cred_name := default (cred_name cu) (param_name params);
            cred_role := cred_role cu;
            cred_avatar := match param_avatar params with
                           | Some a => Some a
                           | None => cred_avatar cu
                           end |} in
       let w' := (updateProfile (Some mock) i params w).2 in
       (updateProfile (Some mock) i params w).1 = Ok (user_of_credential updated)
       ∧ getCurrentUser w' = Some (user_of_credential updated)
       ∧ getUserById (Some mock) i w' = Some updated
       ∧ (∀ j, j ≠ i → getUserById (Some mock) j w' = getUserById (Some mock) j w)
       ∧ (∀ k, k ≠ "custom_users" → k ≠ "userInfo" → getItem k w' = getItem k w)).
Proof.
  split.
  { intros N. unfold updateProfile. rewrite N. by eexists. }
  intros cu U updated w'. unfold w', updateProfile. rewrite U. cbn [fst snd].
  fold updated. fold (upsert (λ u, String.eqb (cred_id u) i) updated (getCustomUsers w)).
  assert (I : cred_id cu = i).
  { unfold getUserById in U. apply find_some in U as [_ E]. by apply String.eqb_eq in E. }
  assert (C : ∀ v l, getCustomUsers (setItem STORAGE_KEYS.USER_INFO v (saveCustomUsers l w)) = l).
  { intros v l. rewrite <- (getCustomUsers_save l w) at 2.
    unfold getCustomUsers. rewrite getItem_setItem. by rewrite decide_False by done. }
  split; [done|]. split; [|split; [|split]].
  - rewrite getCurrentUser_cached. apply cached_user_stringify.
  - rewrite getUserById_merged in U |- *. rewrite C.
    destruct (find (λ u, String.eqb (cred_id u) i) mock) as [m|] eqn:F; [|done].
    simpl. f_equal. apply find_some in F as [_ E]. apply String.eqb_eq in E.
    unfold merged. rewrite E.
    rewrite find_upsert_same; [done|]. simpl. rewrite I. apply String.eqb_refl.
  - intros j N. rewrite !getUserById_merged, C.
    destruct (find (λ u, String.eqb (cred_id u) j) mock) as [m|] eqn:F; [|done].
    simpl. f_equal. apply find_some in F as [_ E]. apply String.eqb_eq in E.
    unfold merged. rewrite E. f_equal. apply find_upsert_other.
    + intros z Z. apply String.eqb_eq in Z. apply String.eqb_neq. congruence.
    + simpl. apply String.eqb_neq. congruence.
  - intros k NC NU. unfold saveCustomUsers. rewrite !getItem_setItem.
    by rewrite !decide_False by done.
Qed.

(** [resetUserData] drops the overlay: the merged list is the directory
    again, whatever edits were stored, and no other key is touched. *)
Theorem resetUserData_restores_directory (mock : list UserCredential) (w : World) :
  getAllUsers (Some mock) (resetUserData w) = mock
  ∧ (∀ i, getUserById (Some mock) i (resetUserData w)
          = find (λ u, String.eqb (cred_id u) i) mock)
  ∧ (∀ k, k ≠ "custom_users" → getItem k (resetUserData w) = getItem k w).
Proof.
  assert (C : getCustomUsers (resetUserData w) = []).
  { unfold getCustomUsers, resetUserData. rewrite getItem_removeItem.
    by rewrite decide_True. }
  assert (A : getAllUsers (Some mock) (resetUserData w) = mock).
  { rewrite getAllUsers_merged, C. induction mock as [|m mock IH]; [done|].
    cbn [map]. by rewrite IH. }
  split; [done|]. split.
  - intros i. unfold getUserById. by rewrite A.
  - intros k N. unfold resetUserData. rewrite getItem_removeItem.
    by rewrite decide_False by done.
Qed.

End Profile.

(** ** Application state container *)

(** Only a fulfilled login or a fulfilled session restoration turns the
    authenticated flag on, and it then comes with a user and a token. *)
Theorem only_fulfilled_session_authenticates
    (state : AuthSlice.AuthState) (action : AuthSlice.Action) :
  AuthSlice.isAuthenticated state = false →
  AuthSlice.isAuthenticated (AuthSlice.reducer state action) = true →
  ∃ u t, (action = AuthSlice.loginThunk_fulfilled u t
          ∨ action = AuthSlice.getSessionThunk_fulfilled u t)
       ∧ AuthSlice.user (AuthSlice.reducer state action) = Some u
       ∧ AuthSlice.accessToken (AuthSlice.reducer state action) = Some t.
Proof.
  intros F T. destruct action; simpl in T; try congruence.
  - exists u, token. auto.
  - exists u, token. auto.
Qed.


Section ThunkOutcomes.
Context `{Json TokenMetadata, Json User}.

Lemma or_default_nonempty c s d : or_default (Some (String c s)) d = String c s.
Proof. done. Qed.

(** A [loginThunk] that succeeds leaves the store authenticated with the
    returned user and with the access token that is persisted; one that
    fails leaves storage and user alone, clears the flag and shows the
    service's message. *)
Theorem loginThunk_outcome
    (f : option (list UserCredential)) (c : LoginCredentials)
    (w : World) (state : AuthSlice.AuthState) :
  let w' := (AuthSlice.loginThunk f c w state).1 in
  let state' := (AuthSlice.loginThunk f c w state).2 in
  AuthSlice.loading state' = false
  ∧ (∀ r, (login f c w).1 = Ok r →
       AuthSlice.isAuthenticated state' = true
       ∧ AuthSlice.user state' = Some (response_user r)
       ∧ AuthSlice.accessToken state' = getAccessToken w'
       ∧ AuthSlice.error state' = None
       ∧ ProtectedRoute state' = Children)
  ∧ (∀ e, (login f c w).1 = Err e →
       w' = w
       ∧ AuthSlice.isAuthenticated state' = false
       ∧ AuthSlice.user state' = AuthSlice.user state
       ∧ AuthSlice.error state' = Some (message e)
       ∧ message e ≠ ""
       ∧ ProtectedRoute state' = NavigateToLogin).
Proof.
  intros w' state'. unfold w', state', AuthSlice.loginThunk.
  split; [|split].
  - by destruct (login f c w) as [[r|e] w1].
  - intros r L. pose proof (login_success_persists_facts f c w r L) as (S & _).
    destruct (login f c w) as [[r'|e] w1]; simpl in *; [|discriminate].
    injection L as ->. unfold getAccessToken. rewrite S.
    destruct (response_tokens r) as [a t] eqn:T; cbn [accessToken] in *.
    apply getStoredTokens_Some in S as (_ & N & _).
    apply truthy_Some in N. by rewrite N.
  - intros e L. pose proof (login_failure_leaves_world_facts f c w e L) as (W & _).
    assert (M : ∃ ch s, message e = String ch s).
    { unfold login in L. repeat case_match; simplify_eq/=; by eexists _, _. }
    destruct M as (ch & s & M).
    destruct (login f c w) as [[r'|e'] w1]; simpl in *; [discriminate|].
    injection L as ->. rewrite M. by repeat split.
Qed.

(** [logoutThunk] always ends with the session cleared from storage and
    the store reset to its initial state; protected routes then redirect. *)
Lemma logoutThunk_resets (w : World) (state : AuthSlice.AuthState) :
  AuthSlice.logoutThunk w state = (clearTokens w, AuthSlice.initialState)
  ∧ getStoredTokens (AuthSlice.logoutThunk w state).1 = None
  ∧ ProtectedRoute (AuthSlice.logoutThunk w state).2 = NavigateToLogin.
Proof. split; [done|]. split; [apply clearTokens_pair_gone|done]. Qed.

(** When [getSessionThunk] has run, the route guard never shows the
    loading screen: it renders the page exactly when restoration succeeded,
    and then the token in the store is the one persisted.  While the thunk
    is pending the guard shows the loading screen. *)
Theorem ProtectedRoute_after_getSessionThunk (w : World) (state : AuthSlice.AuthState) :
  let w' := (AuthSlice.getSessionThunk w state).1 in
  let state' := (AuthSlice.getSessionThunk w state).2 in
  ProtectedRoute (AuthSlice.reducer state AuthSlice.getSessionThunk_pending)
  = LoadingScreen
  ∧ ProtectedRoute state'
    = match (getSession w).1 with Ok _ => Children | Err _ => NavigateToLogin end
  ∧ (∀ u t, (getSession w).1 = Ok (u, t) →
       AuthSlice.user state' = Some u
       ∧ AuthSlice.accessToken state' = Some t
       ∧ getAccessToken w' = Some t).
Proof.
  intros w' state'. unfold w', state', AuthSlice.getSessionThunk.
  split; [done|]. split.
  - by destruct (getSession w) as [[[u t]|e] w1].
  - intros u t G.
    assert (A : getAccessToken (getSession w).2 = Some t).
    { revert G. unfold getSession.
      destruct (getStoredTokens w) as [[a r]|] eqn:S; [|discriminate].
      cbn [accessToken refreshToken].
      destruct (isTokenValid (Some a) w) eqn:V; simpl.
      - unfold restoreUser. repeat case_match; try discriminate.
        intros [= <- <-]. simpl. unfold getAccessToken. rewrite S.
        apply getStoredTokens_Some in S as (_ & N & _).
        apply truthy_Some in N. cbn [accessToken]. by rewrite N.
      - destruct (isTokenValid (Some r) w) eqn:R.
        + destruct (refreshAccessToken_valid r w R) as (m & M & ->).
          cbn [negb truthy next_uuid]. fold (next_uuid w). fold (renewed w r m).
          unfold restoreUser. repeat case_match; try discriminate.
          intros [= <- <-]. simpl. unfold getAccessToken.
          assert (N : r ≠ "") by (apply getStoredTokens_Some in S; tauto).
          by rewrite (renewed_stored w r m N).
        + rewrite (refreshAccessToken_invalid r w R). discriminate. }
    destruct (getSession w) as [[[u' t']|e] w1]; simpl in *; [|discriminate].
    by injection G as -> ->.
Qed.

End ThunkOutcomes.

(** ** Request pipeline: the other paths *)

Section PipelineMore.
Import AxiosInstance.
Context `{Json TokenMetadata, Json User}.

#[local] Arguments requestInterceptor : simpl never.
#[local] Arguments renew : simpl never.
#[local] Arguments axiosInstance : simpl never.

(** The token the request interceptor attaches: the store's, or else the
    persisted one. *)
Definition bearer (e : Env) : option string :=
  if truthy (AuthSlice.accessToken (store e)) then AuthSlice.accessToken (store e)
  else getAccessToken (world e).

Lemma requestInterceptor_eq c e :
  requestInterceptor c e
  = set_header "X-Request-ID"
      (pretty (Date_now (world e)) +:+ "-" +:+ math_random e (length (wire e)))
      (match bearer e with
       | Some t => set_header "Authorization" ("Bearer " +:+ t) c
       | None => c
       end).
Proof.
  unfold requestInterceptor, bearer, getAccessToken.
  destruct (AuthSlice.accessToken (store e)) as [[|ch t]|]; cbn [negb truthy];
    try done;
    destruct (getStoredTokens (world e)) as [[a r]|]; cbn [accessToken]; try done;
    by destruct a.
Qed.

Lemma requestInterceptor_headers_facts (c : InternalAxiosRequestConfig) (e : Env) :
  let c' := requestInterceptor c e in
  url c' = url c
  ∧ _isRetry c' = _isRetry c
  ∧ headers c' !! "Authorization"
    = match bearer e with
      | Some t => Some ("Bearer " +:+ t)
      | None => headers c !! "Authorization"
      end
  ∧ is_Some (headers c' !! "X-Request-ID")
  ∧ (∀ k, k ≠ "Authorization" → k ≠ "X-Request-ID" →
          headers c' !! k = headers c !! k)
  ∧ (bearer e = None ↔ truthy (AuthSlice.accessToken (store e)) = false
                       ∧ getStoredTokens (world e) = None).
Proof.
  intros c'. unfold c'. rewrite requestInterceptor_eq.
  assert (B : bearer e = None ↔ truthy (AuthSlice.accessToken (store e)) = false
                                ∧ getStoredTokens (world e) = None).
  { unfold bearer, getAccessToken.
    destruct (getStoredTokens (world e)) as [[a r]|] eqn:S.
    - apply getStoredTokens_Some in S as (_ & N & _). apply truthy_Some in N.
      cbn [accessToken]. rewrite N.
      destruct (AuthSlice.accessToken (store e)) as [[|ch t]|]; cbn [truthy];
        (split; [intros E; discriminate E | intros [_ E]; discriminate E]).
    - destruct (AuthSlice.accessToken (store e)) as [[|ch t]|]; cbn [truthy];
        (split; [intros E; try discriminate E; by split
                |intros [E _]; try discriminate E; done]). }
  destruct (bearer e) as [t|]; unfold set_header; cbn [url _isRetry headers].
  - split; [done|]. split; [done|].
    split; [by rewrite lookup_insert_ne, lookup_insert_eq by done|].
    split; [by rewrite lookup_insert_eq|]. split; [|done].
    intros k NA NX. by rewrite !lookup_insert_ne by done.
  - split; [done|]. split; [done|].
    split; [by rewrite lookup_insert_ne by done|].
    split; [by rewrite lookup_insert_eq|]. split; [|done].
    intros k NA NX. by rewrite !lookup_insert_ne by done.
Qed.

(** The request interceptor attaches the store's access token as a bearer
    credential, falling back to the persisted one; without either it leaves
    the [Authorization] header as it came.  It always sets [X-Request-ID]
    and changes nothing else of the request. *)
Theorem requestInterceptor_headers (c : InternalAxiosRequestConfig) (e : Env) :
  let c' := requestInterceptor c e in
  url c' = url c
  ∧ _isRetry c' = _isRetry c
  ∧ headers c' !! "Authorization"
    = match bearer e with
      | Some t => Some ("Bearer " +:+ t)
      | None => headers c !! "Authorization"
      end
  ∧ is_Some (headers c' !! "X-Request-ID")
  ∧ (∀ k, k ≠ "Authorization" → k ≠ "X-Request-ID" →
          headers c' !! k = headers c !! k)
  ∧ (bearer e = None ↔ truthy (AuthSlice.accessToken (store e)) = false
                       ∧ getStoredTokens (world e) = None).
Proof. exact (requestInterceptor_headers_facts c e). Qed.

Lemma send_frame net c e :
  localStorage (world (send net c e).2) = localStorage (world e)
  ∧ store (send net c e).2 = store e
  ∧ href (send net c e).2 = href e
  ∧ wire (send net c e).2 = c :: wire e
  ∧ clock (world (send net c e).2) = clock (world e) + elapsed (net (length (wire e)) c).
Proof. done. Qed.

(** A reply in the 2xx range is passed through: the caller gets a response
    with that status after one send; nothing is renewed, and storage, store
    and location are as before.  One unit of fuel is enough. *)
Theorem axiosInstance_success_passthrough
    (net : Network) (c : InternalAxiosRequestConfig) (e : Env) (fuel : nat) (s : Z) :
  reply_status (net (length (wire e)) (requestInterceptor c e)) = Some s →
  200 ≤ s < 300 →
  (1 ≤ fuel)%nat →
  ∃ e', axiosInstance fuel net c e
        = Some (inl (mkResponse s (requestInterceptor c e)), e')
      ∧ wire e' = requestInterceptor c e :: wire e
      ∧ localStorage (world e') = localStorage (world e)
      ∧ uuid_next (world e') = uuid_next (world e)
      ∧ store e' = store e
      ∧ href e' = href e.
Proof.
  intros R L F. destruct fuel as [|fuel]; [lia|].
  rewrite axiosInstance_unfold. cbv zeta. rewrite R.
  rewrite bool_decide_eq_true_2 by done.
  eexists. split; [done|]. by repeat split.
Qed.

(** A failure that is not a 401 (another status, or no response at all) is
    handed to the caller as it is after one send: no renewal, no teardown,
    no redirect. *)
Theorem axiosInstance_other_failure
    (net : Network) (c : InternalAxiosRequestConfig) (e : Env) (fuel : nat) :
  let c' := requestInterceptor c e in
  let st := reply_status (net (length (wire e)) c') in
  (∀ s, st = Some s → ¬ 200 ≤ s < 300) →
  st ≠ Some 401 →
  (1 ≤ fuel)%nat →
  ∃ e', axiosInstance fuel net c e = Some (inr (mkError c' st), e')
      ∧ wire e' = c' :: wire e
      ∧ localStorage (world e') = localStorage (world e)
      ∧ uuid_next (world e') = uuid_next (world e)
      ∧ store e' = store e
      ∧ href e' = href e.
Proof.
  intros c' st N4 N F. destruct fuel as [|fuel]; [lia|].
  rewrite axiosInstance_unfold. cbv zeta. fold c'. fold st.
  assert (K : ∀ err, response_status err = st →
                responseRejected (axiosInstance fuel net) err (send net c' e).2
                = Some (inr err, (send net c' e).2)).
  { intros err E. unfold responseRejected. rewrite E.
    by rewrite bool_decide_eq_false_2 by done. }
  destruct st as [s|] eqn:St.
  - rewrite bool_decide_eq_false_2 by (by apply N4).
    rewrite K by done. eexists. split; [done|]. by repeat split.
  - rewrite K by done. eexists. split; [done|]. by repeat split.
Qed.

Lemma renew_valid e a r :
  getStoredTokens (world e) = Some {| accessToken := a; refreshToken := r |} →
  isTokenValid (Some r) (world e) = true →
  ∃ m, getTokenMetadata r (world e) = Some m
     ∧ renew e
       = (Some (next_uuid (world e)),
          dispatch (AuthSlice.setAccessToken (next_uuid (world e)))
            (with_world (renewed (world e) r m) e)).
Proof.
  intros S R. unfold renew. rewrite S; cbn [refreshToken].
  assert (N : r ≠ "") by (apply getStoredTokens_Some in S; tauto).
  apply truthy_Some in N. rewrite N, R; cbn [negb].
  destruct (refreshAccessToken_valid r (world e) R) as (m & M & ->).
  exists m. by split.
Qed.

Lemma renew_invalid e :
  (getStoredTokens (world e) = None
   ∨ ∃ a r, getStoredTokens (world e) = Some {| accessToken := a; refreshToken := r |}
          ∧ isTokenValid (Some r) (world e) = false) →
  renew e = (None, e).
Proof.
  intros [N|(a & r & S & R)]; unfold renew.
  - by rewrite N.
  - rewrite S; cbn [refreshToken]. rewrite R. by destruct (negb (truthy (Some r))).
Qed.

(** The environment when the first reply has arrived. *)
Definition after_first (net : Network) (c : InternalAxiosRequestConfig) (e : Env) : Env :=
  (send net (requestInterceptor c e) e).2.

(** Silent renewal: a request without the flag gets a 401, the stored
    refresh token is valid when the reply arrives, and the resend gets a 2xx
    reply.  The caller then sees the successful response of the resend,
    which carried the new token as its bearer credential; the new token is
    in the store and persisted next to the unchanged refresh token; the
    request was sent exactly twice. *)
Theorem axiosInstance_silent_renewal
    (net : Network) (c : InternalAxiosRequestConfig) (e : Env) (fuel : nat)
    (a r : string) (s : Z) :
  _isRetry c = false →
  (∀ c', reply_status (net (length (wire e)) c') = Some 401) →
  (∀ c', reply_status (net (S (length (wire e))) c') = Some s) →
  200 ≤ s < 300 →
  getStoredTokens (world e) = Some {| accessToken := a; refreshToken := r |} →
  isTokenValid (Some r) (world (after_first net c e)) = true →
  (2 ≤ fuel)%nat →
  ∃ resent e',
    axiosInstance fuel net c e = Some (inl (mkResponse s resent), e')
    ∧ headers resent !! "Authorization" = Some ("Bearer " +:+ next_uuid (world e))
    ∧ _isRetry resent = true
    ∧ wire e' = [resent; requestInterceptor c e] ++ wire e
    ∧ AuthSlice.accessToken (store e') = Some (next_uuid (world e))
    ∧ AuthSlice.isAuthenticated (store e') = AuthSlice.isAuthenticated (store e)
    ∧ getStoredTokens (world e')
      = Some {| accessToken := next_uuid (world e); refreshToken := r |}
    ∧ href e' = href e.
Proof.
  intros F R1 R2 L St V Fu. destruct fuel as [|[|fuel]]; [lia..|].
  rewrite axiosInstance_unfold. cbv zeta. rewrite R1.
  rewrite bool_decide_eq_false_2 by lia.
  rewrite responseRejected_401 by (by rewrite requestInterceptor_isRetry).
  fold (after_first net c e).
  assert (S1 : getStoredTokens (world (after_first net c e))
               = Some {| accessToken := a; refreshToken := r |}).
  { rewrite <- St. by apply getStoredTokens_frame. }
  destruct (renew_valid _ a r S1 V) as (m & M & ->).
  change (next_uuid (world (after_first net c e))) with (next_uuid (world e)).
  set (e2 := dispatch _ _).
  set (c2 := set_header _ _ _).
  rewrite axiosInstance_unfold. cbv zeta.
  change (length (wire e2)) with (S (length (wire e))).
  rewrite R2. rewrite bool_decide_eq_true_2 by done.
  assert (N : r ≠ "") by (apply getStoredTokens_Some in St; tauto).
  eexists _, _. split; [done|].
  destruct (requestInterceptor_headers_facts c2 e2) as (_ & IR & HA & _).
  split.
  { rewrite HA. unfold bearer. by subst e2. }
  split; [by rewrite IR|]. split; [done|]. split; [done|]. split; [done|].
  split; [|done].
  transitivity (getStoredTokens (renewed (world (after_first net c e)) r m));
    [by apply getStoredTokens_frame|exact (renewed_stored _ r m N)].
Qed.

(** Teardown: a request without the flag gets a 401 and no renewal is
    possible (no stored pair, or the refresh token is invalid when the reply
    arrives).  The 401 is handed to the caller after a single send, the
    store is reset, the location becomes the login page, and [localStorage]
    is left exactly as it was: the stored pair, if any, is not removed. *)
Theorem axiosInstance_teardown
    (net : Network) (c : InternalAxiosRequestConfig) (e : Env) (fuel : nat) :
  _isRetry c = false →
  (∀ c', reply_status (net (length (wire e)) c') = Some 401) →
  (getStoredTokens (world e) = None
   ∨ ∃ a r, getStoredTokens (world e) = Some {| accessToken := a; refreshToken := r |}
          ∧ isTokenValid (Some r) (world (after_first net c e)) = false) →
  (1 ≤ fuel)%nat →
  ∃ err e',
    axiosInstance fuel net c e = Some (inr err, e')
    ∧ response_status err = Some 401
    ∧ wire e' = requestInterceptor c e :: wire e
    ∧ store e' = AuthSlice.initialState
    ∧ href e' = "/login"
    ∧ localStorage (world e') = localStorage (world e)
    ∧ getStoredTokens (world e') = getStoredTokens (world e).
Proof.
  intros F R1 I Fu. destruct fuel as [|fuel]; [lia|].
  rewrite axiosInstance_unfold. cbv zeta. rewrite R1.
  rewrite bool_decide_eq_false_2 by lia.
  rewrite responseRejected_401 by (by rewrite requestInterceptor_isRetry).
  fold (after_first net c e).
  rewrite renew_invalid.
  - eexists _, _. split; [done|]. by repeat split.
  - destruct I as [N|(a & r & S & V)]; [left|right].
    + rewrite <- N. by apply getStoredTokens_frame.
    + exists a, r. split; [|done]. rewrite <- S. by apply getStoredTokens_frame.
Qed.

(** When the resend after a successful renewal is rejected with 401 too,
    the failure reaches the caller without teardown: the store keeps its
    user and flag and holds the new token, the renewed pair stays
    persisted, and there is no redirect. *)
Theorem axiosInstance_failed_resend_keeps_session
    (net : Network) (c : InternalAxiosRequestConfig) (e : Env) (fuel : nat)
    (a r : string) :
  _isRetry c = false →
  always_401 net →
  getStoredTokens (world e) = Some {| accessToken := a; refreshToken := r |} →
  isTokenValid (Some r) (world (after_first net c e)) = true →
  (2 ≤ fuel)%nat →
  ∃ err e',
    axiosInstance fuel net c e = Some (inr err, e')
    ∧ response_status err = Some 401
    ∧ length (wire e') = S (S (length (wire e)))
    ∧ store e' = AuthSlice.reducer (store e)
                   (AuthSlice.setAccessToken (next_uuid (world e)))
    ∧ AuthSlice.isAuthenticated (store e') = AuthSlice.isAuthenticated (store e)
    ∧ href e' = href e
    ∧ getStoredTokens (world e')
      = Some {| accessToken := next_uuid (world e); refreshToken := r |}.
Proof.
  intros F N St V Fu. destruct fuel as [|[|fuel]]; [lia..|].
  rewrite axiosInstance_unfold. cbv zeta. rewrite N.
  rewrite bool_decide_eq_false_2 by lia.
  rewrite responseRejected_401 by (by rewrite requestInterceptor_isRetry).
  fold (after_first net c e).
  assert (S1 : getStoredTokens (world (after_first net c e))
               = Some {| accessToken := a; refreshToken := r |}).
  { rewrite <- St. by apply getStoredTokens_frame. }
  destruct (renew_valid _ a r S1 V) as (m & M & ->).
  change (next_uuid (world (after_first net c e))) with (next_uuid (world e)).
  rewrite (axiosInstance_flagged _ net _ _ N) by done.
  assert (Nr : r ≠ "") by (apply getStoredTokens_Some in St; tauto).
  eexists _, _. split; [done|]. split; [done|]. split; [done|].
  split; [done|]. split; [done|]. split; [done|].
  transitivity (getStoredTokens (renewed (world (after_first net c e)) r m));
    [by apply getStoredTokens_frame|exact (renewed_stored _ r m Nr)].
Qed.

End PipelineMore.

(** ** The further properties at concrete stores *)

Section Instances.

#[local] Existing Instances Codec.Json_TokenMetadata Codec.Json_User Codec.Json_credentials.

Lemma login_failure_leaves_world_witness :
  (login (Some Sample.directory) (mkLoginCredentials "admin@example.com" "wrong")
     Sample.fresh).2 = Sample.fresh.
Proof.
  eapply (login_failure_leaves_world (Some Sample.directory)
            (mkLoginCredentials "admin@example.com" "wrong") Sample.fresh).
  reflexivity.
Defined.

Lemma login_success_persists_witness :
  getCurrentUser Sample.logged_in = Some SampleSessions.admin_user.
Proof.
  destruct (login_success_persists (Some Sample.directory)
              SampleExtras.admin_credentials Sample.fresh
              SampleExtras.admin_response eq_refl) as (_ & U & _).
  exact U.
Defined.

Lemma getSession_after_login_witness :
  getSession Sample.logged_in
  = (Ok (SampleSessions.admin_user, "uuid-0"), Sample.logged_in).
Proof.
  exact (getSession_after_login (Some Sample.directory)
           SampleExtras.admin_credentials Sample.fresh
           SampleExtras.admin_response eq_refl).
Defined.

Lemma login_authenticated_for_seven_days_witness :
  isAuthenticated (later (1000 + 7 * 24 * 60 * 60 * 1000) Sample.logged_in) = false
  ∧ isAuthenticated (later (999 + 7 * 24 * 60 * 60 * 1000) Sample.logged_in) = true.
Proof.
  split.
  - etransitivity;
      [exact (login_authenticated_for_seven_days (Some Sample.directory)
                SampleExtras.admin_credentials Sample.fresh
                SampleExtras.admin_response _ eq_refl)|reflexivity].
  - etransitivity;
      [exact (login_authenticated_for_seven_days (Some Sample.directory)
                SampleExtras.admin_credentials Sample.fresh
                SampleExtras.admin_response _ eq_refl)|reflexivity].
Defined.

Lemma manualRefreshToken_outcomes_witness :
  (∃ msg, manualRefreshToken Sample.fresh
          = (Err (mkAuthError SESSION_NOT_FOUND msg), Sample.fresh))
  ∧ (∃ w', manualRefreshToken Sample.logged_in = (Ok "uuid-2", w')
         ∧ getStoredTokens w'
           = Some {| accessToken := "uuid-2"; refreshToken := "uuid-1" |}).
Proof.
  split.
  - apply (manualRefreshToken_outcomes Sample.fresh). reflexivity.
  - destruct (manualRefreshToken_outcomes Sample.logged_in) as (_ & pair).
    destruct (pair "uuid-0" "uuid-1" eq_refl) as (_ & valid).
    destruct (valid eq_refl) as (w' & E & St & _).
    exists w'. split; [exact E|exact St].
Defined.

Lemma getSession_unreadable_user_witness :
  ∃ msg, getSession SampleExtras.unreadable_user
         = (Err (mkAuthError TOKEN_INVALID msg), clearTokens SampleExtras.unreadable_user)
       ∧ getStoredTokens (clearTokens SampleExtras.unreadable_user) = None
       ∧ getItem ("token_meta_" +:+ "uuid-0") (clearTokens SampleExtras.unreadable_user)
         = None.
Proof.
  apply (getSession_unreadable_user SampleExtras.unreadable_user
           "uuid-0" "uuid-1" "garbage"); first [reflexivity | discriminate].
Defined.

Lemma superseded_metadata_stays_witness :
  getItem ("token_meta_" +:+ "uuid-0") (logout (getSession Sample.access_expired).2).2
  = getItem ("token_meta_" +:+ "uuid-0") Sample.access_expired.
Proof.
  apply (superseded_metadata_stays Sample.access_expired "uuid-0" "uuid-1");
    first [reflexivity | discriminate | (vm_compute; discriminate)].
Defined.

Lemma getSession_succeeds_iff_authenticated_witness :
  ∃ t w', getSession Sample.logged_in = (Ok (SampleSessions.admin_user, t), w').
Proof.
  destruct (getSession_succeeds_iff_authenticated
              (H := Codec.Json_TokenMetadata) (H0 := Codec.Json_User)
              Sample.logged_in SampleSessions.admin_user eq_refl) as [_ K].
  apply K. reflexivity.
Defined.



Lemma changePassword_success_effect_witness :
  ∃ msg, (changePassword (Some Sample.directory) "1" "admin123" "again"
            SampleSessions.password_changed).1
         = Err (mkAuthError INVALID_PASSWORD msg).
Proof.
  destruct (changePassword_success_effect Sample.directory
              "1" "admin123" "s3cret" Sample.fresh eq_refl) as (_ & _ & _ & K).
  exact (K "again").
Defined.

Lemma updateProfile_effect_witness :
  (updateProfile (Some Sample.directory) "1" SampleExtras.rename Sample.fresh).1
  = Ok (mkUser "1" "admin@example.com" "Root" admin None).
Proof.
  destruct (updateProfile_effect Sample.directory "1" SampleExtras.rename Sample.fresh)
    as [_ K].
  destruct (K SampleExtras.admin_record eq_refl) as (E & _).
  exact E.
Defined.

Lemma resetUserData_restores_directory_witness :
  getItem "accessToken" (resetUserData Sample.logged_in)
  = getItem "accessToken" Sample.logged_in.
Proof.
  apply (resetUserData_restores_directory Sample.directory Sample.logged_in).
  discriminate.
Defined.

Lemma only_fulfilled_session_authenticates_witness :
  ∃ u t,
    (AuthSlice.loginThunk_fulfilled SampleSessions.admin_user "uuid-0"
     = AuthSlice.loginThunk_fulfilled u t
     ∨ AuthSlice.loginThunk_fulfilled SampleSessions.admin_user "uuid-0"
       = AuthSlice.getSessionThunk_fulfilled u t)
    ∧ AuthSlice.user
        (AuthSlice.reducer AuthSlice.initialState
           (AuthSlice.loginThunk_fulfilled SampleSessions.admin_user "uuid-0"))
      = Some u
    ∧ AuthSlice.accessToken
        (AuthSlice.reducer AuthSlice.initialState
           (AuthSlice.loginThunk_fulfilled SampleSessions.admin_user "uuid-0"))
      = Some t.
Proof.
  exact (only_fulfilled_session_authenticates AuthSlice.initialState
           (AuthSlice.loginThunk_fulfilled SampleSessions.admin_user "uuid-0")
           eq_refl eq_refl).
Defined.


Lemma loginThunk_outcome_witness :
  AuthSlice.isAuthenticated
    (AuthSlice.loginThunk (Some Sample.directory) SampleExtras.admin_credentials
       Sample.fresh AuthSlice.initialState).2 = true.
Proof.
  destruct (loginThunk_outcome (Some Sample.directory) SampleExtras.admin_credentials
              Sample.fresh AuthSlice.initialState) as (_ & K & _).
  apply (K SampleExtras.admin_response eq_refl).
Defined.

Lemma ProtectedRoute_after_getSessionThunk_witness :
  AuthSlice.accessToken
    (AuthSlice.getSessionThunk Sample.logged_in AuthSlice.initialState).2
  = Some "uuid-0".
Proof.
  destruct (ProtectedRoute_after_getSessionThunk Sample.logged_in AuthSlice.initialState)
    as (_ & _ & K).
  apply (K SampleSessions.admin_user "uuid-0" eq_refl).
Defined.

Lemma requestInterceptor_headers_witness :
  AxiosInstance.headers
    (AxiosInstance.requestInterceptor SamplePipeline.request SamplePipeline.env)
    !! "Accept"
  = AxiosInstance.headers SamplePipeline.request !! "Accept".
Proof.
  apply (requestInterceptor_headers SamplePipeline.request SamplePipeline.env);
    discriminate.
Defined.

Lemma axiosInstance_success_passthrough_witness :
  ∃ e', AxiosInstance.axiosInstance 1 SampleExtras.accepting
          SamplePipeline.request SamplePipeline.env
        = Some (inl (AxiosInstance.mkResponse 200
                       (AxiosInstance.requestInterceptor SamplePipeline.request
                          SamplePipeline.env)), e').
Proof.
  destruct (axiosInstance_success_passthrough SampleExtras.accepting
              SamplePipeline.request SamplePipeline.env 1 200 eq_refl
              ltac:(lia) (le_n 1)) as (e' & E & _).
  exists e'. exact E.
Defined.

Lemma axiosInstance_other_failure_witness :
  ∃ e', AxiosInstance.axiosInstance 1 SampleExtras.failing
          SamplePipeline.request SamplePipeline.env
        = Some (inr (AxiosInstance.mkError
                       (AxiosInstance.requestInterceptor SamplePipeline.request
                          SamplePipeline.env) (Some 500)), e').
Proof.
  destruct (axiosInstance_other_failure SampleExtras.failing
              SamplePipeline.request SamplePipeline.env 1) as (e' & E & _).
  - intros s [= <-]. lia.
  - discriminate.
  - apply le_n.
  - exists e'. exact E.
Defined.

Lemma axiosInstance_silent_renewal_witness :
  ∃ resent e',
    AxiosInstance.axiosInstance 2 SampleExtras.rejecting_once
      SamplePipeline.request SamplePipeline.env
    = Some (inl (AxiosInstance.mkResponse 200 resent), e')
    ∧ AxiosInstance.headers resent !! "Authorization" = Some "Bearer uuid-2".
Proof.
  destruct (axiosInstance_silent_renewal SampleExtras.rejecting_once
              SamplePipeline.request SamplePipeline.env 2 "uuid-0" "uuid-1" 200)
    as (resent & e' & E & A & _).
  - reflexivity.
  - intros c'. reflexivity.
  - intros c'. reflexivity.
  - lia.
  - reflexivity.
  - reflexivity.
  - apply le_n.
  - exists resent, e'. split; [exact E|exact A].
Defined.

Lemma axiosInstance_teardown_witness :
  ∃ err e',
    AxiosInstance.axiosInstance 1 SamplePipeline.rejecting
      SamplePipeline.request SampleExtras.cold
    = Some (inr err, e')
    ∧ AxiosInstance.href e' = "/login".
Proof.
  destruct (axiosInstance_teardown SamplePipeline.rejecting
              SamplePipeline.request SampleExtras.cold 1)
    as (err & e' & E & _ & _ & _ & L & _).
  - reflexivity.
  - intros c'. reflexivity.
  - left. reflexivity.
  - apply le_n.
  - exists err, e'. split; [exact E|exact L].
Defined.

Lemma axiosInstance_failed_resend_keeps_session_witness :
  ∃ err e',
    AxiosInstance.axiosInstance 2 SamplePipeline.rejecting
      SamplePipeline.request SamplePipeline.env
    = Some (inr err, e')
    ∧ AxiosInstance.href e' = AxiosInstance.href SamplePipeline.env.
Proof.
  destruct (axiosInstance_failed_resend_keeps_session SamplePipeline.rejecting
              SamplePipeline.request SamplePipeline.env 2 "uuid-0" "uuid-1")
    as (err & e' & E & _ & _ & _ & _ & L & _).
  - reflexivity.
  - intros n c. reflexivity.
  - reflexivity.
  - reflexivity.
  - apply le_n.
  - exists err, e'. split; [exact E|exact L].
Defined.

End Instances.
